(** * Agent orchestration layer: directory, delegation client, router, sessions

    A shallow embedding of
      - [a2a_protocol/agent_registry.py]  (class AgentRegistry),
      - [a2a_protocol/communication.py]   (class A2AClient),
      - [orchestration/router.py]         (class AgentRouter),
      - [orchestration/conversation_manager.py] (class ConversationManager),
      - [agents/base_agent.py]            (class BaseAgent: its directory,
        status, memory and delegation methods).

    Conventions of the embedding.
      - A Python [dict] with string keys is an insertion-ordered association
        list ([PyDict]): iteration order is observable in the router
        ([agents.items()]) and in the directory ([agents.values()]).
      - Python [str] is [string], for ASCII text; on such text
        [str.lower] is the ASCII lower-casing [lower].  Statements about
        lower-cased text carry the hypothesis that the text is ASCII.
      - An [async] method of an object of class [S] returning [A] is a
        computation [Py S A]: it reads and updates the object, reads the
        wall clock, writes to the console, hands envelopes to the transport,
        and either returns or raises.
      - [datetime.now()] is a reading of a counter that advances at each
        reading; timestamps are kept as those readings. *)

From Stdlib Require Import String Ascii List Bool Arith ZArith Lia.
Import ListNotations.
Open Scope string_scope.

(* ===================================================================== *)
(** ** Python dictionaries *)
(* ===================================================================== *)

Module PyDict.
Section Dict.
Context {V : Type}.

Definition t := list (string * V).

Definition empty : t := [].

(** [d.get(k)] *)
Fixpoint get (d : t) (k : string) : option V :=
  match d with
  | [] => None
  | (k', v) :: d' => if String.eqb k' k then Some v else get d' k
  end.

(** [k in d] *)
Definition contains (d : t) (k : string) : bool :=
  match get d k with Some _ => true | None => false end.

(** [d[k] = v]: an existing key keeps its position, a new key goes last. *)
Fixpoint set (d : t) (k : string) (v : V) : t :=
  match d with
  | [] => [(k, v)]
  | (k', v') :: d' =>
      if String.eqb k' k then (k, v) :: d' else (k', v') :: set d' k v
  end.

(** [del d[k]] (the sources guard every [del] with [k in d]). *)
Definition del (d : t) (k : string) : t :=
  filter (fun kv => negb (String.eqb (fst kv) k)) d.

Definition keys (d : t) : list string := map fst d.
Definition values (d : t) : list V := map snd d.
Definition items (d : t) : list (string * V) := d.

(** The representation invariant of a dictionary: keys are distinct. *)
Definition wf (d : t) : Prop := NoDup (keys d).
End Dict.
Arguments t : clear implicits.
End PyDict.

(* ===================================================================== *)
(** ** Exceptions, the world, and the monad of method bodies *)
(* ===================================================================== *)

(** An instance of (a subclass of) [Exception]: its class, the text
    [str(e)], and the exception that was being handled when it was raised
    ([__context__]). *)
#[local] Unset Elimination Schemes.
Inductive PyExc : Type :=
| Exc (cls : string) (msg : string) (context : option PyExc).
#[local] Set Elimination Schemes.

Definition exc_class (e : PyExc) : string := let 'Exc c _ _ := e in c.
Definition str_exc (e : PyExc) : string := let 'Exc _ m _ := e in m.
Definition exc_context (e : PyExc) : option PyExc := let 'Exc _ _ c := e in c.

(** One entry of the conversation log. *)
Record Entry := mkEntry {
  role : string;
  content : string;
  entry_timestamp : nat
}.

(** The task dictionary, one field per key.  ["type"] and ["capabilities"]
    are optional because the router reads them with
    [task.get(key, default)]. *)
Module Task.
Record t := mk {
  type : option string;
  message : string;
  user_id : string;
  capabilities : option (list string);
  context : PyDict.t string;
  conversation_history : list Entry;
  timestamp : nat
}.
End Task.

(** [AgentCard] (a dataclass; every instance is truthy). *)
Module AgentCard.
Record t := mk {
  agent_id : string;
  name : string;
  description : string;
  capabilities : list string;
  endpoints : PyDict.t string;
  authentication : PyDict.t string;
  metadata : PyDict.t string
}.
End AgentCard.

(** The payload of an envelope: ["task"], ["status"] or ["content"]. *)
Inductive Payload :=
| TaskPayload (task : Task.t)
| StatusPayload (status : PyDict.t string)
| ContentPayload (text : string).

(** The message dictionaries built by [A2AClient].  A broadcast has no
    ["to"] and no ["message_id"]; the message id
    [f"{sender}_{target}_{now}"] is kept as its three components. *)
Record Message := mkMessage {
  msg_from : string;
  msg_to : option string;
  msg_type : string;
  msg_payload : Payload;
  msg_timestamp : nat;
  message_id : option (string * string * nat)
}.

(** What the transport answers. *)
Record Response := mkResponse {
  resp_status : string;
  resp_response : string;
  resp_timestamp : nat
}.

(** Observable effects, in the order they happen. *)
Inductive Event :=
| Printed (line : string)
| Transmitted (target : AgentCard.t) (message : Message).

Record World := mkWorld {
  clock : nat;
  trace : list Event
}.

Record Res (S A : Type) := mkRes {
  outcome : PyExc + A;
  self : S;
  world : World
}.
Arguments mkRes {S A}.
Arguments outcome {S A}.
Arguments self {S A}.
Arguments world {S A}.

Definition Py (S A : Type) : Type := S -> World -> Res S A.

Definition ret {S A} (a : A) : Py S A := fun s w => mkRes (inr a) s w.

Definition raise {S A} (e : PyExc) : Py S A := fun s w => mkRes (inl e) s w.

Definition bind {S A B} (m : Py S A) (f : A -> Py S B) : Py S B :=
  fun s w =>
    let r := m s w in
    match outcome r with
    | inl e => mkRes (inl e) (self r) (world r)
    | inr a => f a (self r) (world r)
    end.

(** [try: m  except Exception as e: h e] *)
Definition try_except {S A} (m : Py S A) (h : PyExc -> Py S A) : Py S A :=
  fun s w =>
    let r := m s w in
    match outcome r with
    | inl e => h e (self r) (world r)
    | inr a => r
    end.

Definition get_self {S} : Py S S := fun s w => mkRes (inr s) s w.

Definition modify {S} (f : S -> S) : Py S unit :=
  fun s w => mkRes (inr tt) (f s) w.

(** A method call on a sub-object reached through a field. *)
Definition zoom {S T A} (get : S -> T) (put : T -> S -> S) (m : Py T A)
  : Py S A :=
  fun s w =>
    let r := m (get s) w in
    mkRes (outcome r) (put (self r) s) (world r).

(** An observable effect is appended to the trace. *)
Definition emit {S} (ev : Event) : Py S unit :=
  fun s w => mkRes (inr tt) s (mkWorld (clock w) (trace w ++ [ev])).

(** [print(line)] *)
Definition print {S} (line : string) : Py S unit := emit (Printed line).

(** [datetime.now()] *)
Definition datetime_now {S} : Py S nat :=
  fun s w => mkRes (inr (clock w)) s (mkWorld (Datatypes.S (clock w)) (trace w)).

Declare Scope py_scope.
Delimit Scope py_scope with py.
Notation "x <- m ;; k" := (bind m (fun x => k))
  (at level 61, m at next level, right associativity) : py_scope.
Notation "m ;; k" := (bind m (fun _ => k))
  (at level 61, right associativity) : py_scope.
Open Scope py_scope.

(** [for x in xs: body x] (no [break], no [return] in the body). *)
Fixpoint for_each {S X} (xs : list X) (body : X -> Py S unit) : Py S unit :=
  match xs with
  | [] => ret tt
  | x :: xs' => body x ;; for_each xs' body
  end.

(** [x in xs] for a list of strings. *)
Definition str_in (x : string) (xs : list string) : bool :=
  existsb (String.eqb x) xs.

(** [c.lower()] on an ASCII character. *)
Definition lower_ascii (c : ascii) : ascii :=
  let n := nat_of_ascii c in
  if (65 <=? n)%nat && (n <=? 90)%nat then ascii_of_nat (n + 32) else c.

(** [s.lower()] for an ASCII text [s]. *)
Fixpoint lower (s : string) : string :=
  match s with
  | EmptyString => EmptyString
  | String c s' => String (lower_ascii c) (lower s')
  end.

(** [sub in s] for strings: [sub] occurs in [s] at some position. *)
Fixpoint str_contains (sub s : string) : bool :=
  if String.prefix sub s then true
  else match s with
       | EmptyString => false
       | String _ s' => str_contains sub s'
       end.

(** [str(s)] inside the [str()] of a container: the text between single
    quotes (texts free of quotes and escapes). *)
Definition repr_str (s : string) : string := "'" ++ s ++ "'".

(** [sep.join(parts)] *)
Fixpoint join (sep : string) (parts : list string) : string :=
  match parts with
  | [] => EmptyString
  | [p] => p
  | p :: rest => p ++ sep ++ join sep rest
  end.

(** [str(l)] of a list of strings. *)
Definition str_list (l : list string) : string :=
  "[" ++ join ", " (map repr_str l) ++ "]".

(** [str(d)] of a dictionary whose values are strings. *)
Definition str_dict (d : PyDict.t string) : string :=
  "{" ++ join ", " (map (fun kv => repr_str (fst kv) ++ ": "
                                   ++ repr_str (snd kv)) d) ++ "}".

(** [d.update(patch)]: the items of [patch] are assigned in order. *)
Definition dict_update {V} (d patch : PyDict.t V) : PyDict.t V :=
  fold_left (fun acc kv => PyDict.set acc (fst kv) (snd kv)) patch d.

(* ===================================================================== *)
(** ** a2a_protocol/agent_registry.py *)
(* ===================================================================== *)

Module AgentRegistry.

Record t := mk { agents : PyDict.t AgentCard.t }.

(** [__init__] *)
Definition init : t := mk PyDict.empty.

Definition register_agent (card : AgentCard.t) : Py t unit :=
  modify (fun r => mk (PyDict.set (agents r) (AgentCard.agent_id card) card)) ;;
  print ("Registered agent: " ++ AgentCard.name card
         ++ " (" ++ AgentCard.agent_id card ++ ")").

(** No effect besides reading the table: a function of the registry. *)
Definition discover_agents (r : t) (capability : string)
  : list AgentCard.t :=
  filter (fun agent => str_in capability (AgentCard.capabilities agent))
         (PyDict.values (agents r)).

Definition get_agent (r : t) (agent_id : string) : option AgentCard.t :=
  PyDict.get (agents r) agent_id.

Definition unregister_agent (agent_id : string) : Py t unit :=
  r <- get_self ;;
  if PyDict.contains (agents r) agent_id then
    modify (fun r => mk (PyDict.del (agents r) agent_id)) ;;
    print ("Unregistered agent: " ++ agent_id)
  else ret tt.



End AgentRegistry.

(* ===================================================================== *)
(** ** a2a_protocol/communication.py *)
(* ===================================================================== *)

(** The dictionaries [handle_incoming_message] answers with:
    [{"status": ..., "message": ...}], [{"status": ...}] or
    [{"error": ...}]. *)
Inductive Ack :=
| AckStatus (status : string) (message : option string)
| AckError (error : string).

Module A2AClient.

(** [_send_message] is the transport hook of the client ("implementation
    depends on transport"): [transport] is its body, what handing the
    envelope to the target's endpoint at a given clock reading yields.
    The registry is the one handed to [__init__]. *)
Record t := mk {
  agent_id : string;
  registry : AgentRegistry.t;
  status_listeners : PyDict.t bool;
  message_queue : list Message;
  transport : AgentCard.t -> Message -> nat -> PyExc + Response
}.

(** The body of [_send_message] in the repository: a simulated delivery. *)
Definition simulated_transport
  (target_card : AgentCard.t) (message : Message) (now : nat)
  : PyExc + Response :=
  inr (mkResponse "delivered"
         ("Message delivered to " ++ AgentCard.agent_id target_card) now).

Definition init (agent_id : string) (registry : AgentRegistry.t) : t :=
  mk agent_id registry PyDict.empty [] simulated_transport.

Definition set_status_listeners (l : PyDict.t bool) (c : t) : t :=
  mk (agent_id c) (registry c) l (message_queue c) (transport c).

Definition set_registry (r : AgentRegistry.t) (c : t) : t :=
  mk (agent_id c) r (status_listeners c) (message_queue c) (transport c).

Definition _send_message (target_card : AgentCard.t) (message : Message)
  : Py t Response :=
  c <- get_self ;;
  emit (Transmitted target_card message) ;;
  now <- datetime_now ;;
  match transport c target_card message now with
  | inl e => raise e
  | inr result => ret result
  end.

Definition delegate_task (target_agent : string) (task : Task.t)
  : Py t Response :=
  c <- get_self ;;
  match AgentRegistry.get_agent (registry c) target_agent with
  | None =>
      raise (Exc "ValueError"
               ("Agent " ++ target_agent ++ " not found in registry") None)
  | Some target_card =>
      ts <- datetime_now ;;
      idts <- datetime_now ;;
      let message :=
        mkMessage (agent_id c) (Some target_agent) "task_delegation"
          (TaskPayload task) ts (Some (agent_id c, target_agent, idts)) in
      try_except (_send_message target_card message)
        (fun e =>
           raise (Exc "Exception"
                    ("Failed to delegate task to " ++ target_agent ++ ": "
                     ++ str_exc e) (Some e)))
  end.

Definition _send_status_update (target_agent : string) (message : Message)
  : Py t unit :=
  c <- get_self ;;
  match AgentRegistry.get_agent (registry c) target_agent with
  | Some target_card => _send_message target_card message ;; ret tt
  | None => ret tt
  end.

Definition broadcast_status (status : PyDict.t string) : Py t unit :=
  c <- get_self ;;
  ts <- datetime_now ;;
  let message :=
    mkMessage (agent_id c) None "status_update" (StatusPayload status)
      ts None in
  for_each (PyDict.keys (status_listeners c))
    (fun listener_id =>
       try_except (_send_status_update listener_id message)
         (fun e =>
            print ("Failed to send status to " ++ listener_id ++ ": "
                   ++ str_exc e))).

Definition subscribe_to_status (agent_id : string) : Py t unit :=
  modify (fun c =>
    set_status_listeners (PyDict.set (status_listeners c) agent_id true) c) ;;
  print ("Subscribed to status updates from " ++ agent_id).

Definition unsubscribe_from_status (agent_id : string) : Py t unit :=
  c <- get_self ;;
  if PyDict.contains (status_listeners c) agent_id then
    modify (fun c =>
      set_status_listeners (PyDict.del (status_listeners c) agent_id) c) ;;
    print ("Unsubscribed from status updates from " ++ agent_id)
  else ret tt.

Definition send_direct_message (target_agent : string) (message : string)
  : Py t Response :=
  c <- get_self ;;
  match AgentRegistry.get_agent (registry c) target_agent with
  | None =>
      raise (Exc "ValueError"
               ("Agent " ++ target_agent ++ " not found in registry") None)
  | Some target_card =>
      ts <- datetime_now ;;
      idts <- datetime_now ;;
      let message_payload :=
        mkMessage (agent_id c) (Some target_agent) "direct_message"
          (ContentPayload message) ts
          (Some (agent_id c, target_agent, idts)) in
      try_except (_send_message target_card message_payload)
        (fun e =>
           raise (Exc "Exception"
                    ("Failed to send message to " ++ target_agent ++ ": "
                     ++ str_exc e) (Some e)))
  end.

Definition set_message_queue (q : list Message) (c : t) : t :=
  mk (agent_id c) (registry c) (status_listeners c) q (transport c).

(** [asyncio.wait_for(self.message_queue.get(), timeout=1.0)]: the oldest
    message of the inbox, or the timeout when the inbox is empty. *)
Definition receive_messages : Py t (option Message) :=
  c <- get_self ;;
  match message_queue c with
  | message :: rest => modify (set_message_queue rest) ;; ret (Some message)
  | [] => ret None
  end.

Definition _handle_task_delegation (message : Message) : Py t Ack :=
  modify (fun c => set_message_queue (message_queue c ++ [message])%list c) ;;
  ret (AckStatus "accepted" (Some "Task delegation received")).

(** [message['status']] raises [KeyError] on a message without that key. *)
Definition _handle_status_update (message : Message) : Py t Ack :=
  match msg_payload message with
  | StatusPayload status =>
      print ("Status update from " ++ msg_from message ++ ": "
             ++ str_dict status) ;;
      ret (AckStatus "received" None)
  | _ => raise (Exc "KeyError" (repr_str "status") None)
  end.

(** [message['content']] raises [KeyError] on a message without that key. *)
Definition _handle_direct_message (message : Message) : Py t Ack :=
  match msg_payload message with
  | ContentPayload text =>
      print ("Direct message from " ++ msg_from message ++ ": " ++ text) ;;
      modify (fun c =>
        set_message_queue (message_queue c ++ [message])%list c) ;;
      ret (AckStatus "received" None)
  | _ => raise (Exc "KeyError" (repr_str "content") None)
  end.

Definition handle_incoming_message (message : Message) : Py t Ack :=
  let message_type := msg_type message in
  if String.eqb message_type "task_delegation" then
    _handle_task_delegation message
  else if String.eqb message_type "status_update" then
    _handle_status_update message
  else if String.eqb message_type "direct_message" then
    _handle_direct_message message
  else ret (AckError ("Unknown message type: " ++ message_type)).

End A2AClient.

(* ===================================================================== *)
(** ** orchestration/router.py *)
(* ===================================================================== *)

(** The clock reading as text, for [str()] of a dictionary that holds one. *)
Fixpoint digits (fuel n : nat) (acc : string) : string :=
  match fuel with
  | 0 => acc
  | Datatypes.S fuel' =>
      let acc' := String (ascii_of_nat (48 + n mod 10)) acc in
      if Nat.eqb (n / 10) 0 then acc' else digits fuel' (n / 10) acc'
  end.

Definition isoformat (n : nat) : string := digits (Datatypes.S n) n EmptyString.

(** [str(result)] of the dictionary a delivery answers with (field texts
    free of quotes and escapes). *)
Definition str_response (r : Response) : string :=
  "{'status': '" ++ resp_status r ++ "', 'response': '" ++ resp_response r
  ++ "', 'timestamp': '" ++ isoformat (resp_timestamp r) ++ "'}".

Module AgentRouter.

(** A locally hosted agent, as far as the router looks at it: the
    attribute [capabilities], a list of strings, which
    [getattr(agent, 'capabilities', [])] may find missing, and the method
    [process_task], kept as what it answers for a task: the [str()] of its
    result, or the [Exception] it raises.  What an agent does while it
    runs (its own broadcasts, clock readings, memory) is outside this
    embedding. *)
Record Agent := mkAgent {
  capabilities : option (list string);
  process_task : Task.t -> PyExc + string
}.

Record t := mk {
  a2a_client : A2AClient.t;
  agents : PyDict.t Agent;
  routing_rules : PyDict.t (list string)
}.

Definition init (a2a_client : A2AClient.t) : t :=
  mk a2a_client PyDict.empty PyDict.empty.

Definition set_a2a_client (c : A2AClient.t) (r : t) : t :=
  mk c (agents r) (routing_rules r).

Definition _agent_has_capabilities
  (agent : Agent) (required_capabilities : list string) : bool :=
  match required_capabilities with
  | [] => true
  | _ =>
      let agent_capabilities :=
        match capabilities agent with Some l => l | None => [] end in
      forallb (fun cap => str_in cap agent_capabilities)
              required_capabilities
  end.

(** [for agent_id in self.routing_rules[task_type]: ...] *)
Fixpoint scan_rule (agents : PyDict.t Agent)
    (required_capabilities : list string) (ids : list string)
  : option string :=
  match ids with
  | [] => None
  | agent_id :: rest =>
      match PyDict.get agents agent_id with
      | Some agent =>
          if _agent_has_capabilities agent required_capabilities
          then Some agent_id
          else scan_rule agents required_capabilities rest
      | None => scan_rule agents required_capabilities rest
      end
  end.

(** [for agent_id, agent in self.agents.items(): ...] *)
Fixpoint scan_local (required_capabilities : list string)
    (items : list (string * Agent)) : option string :=
  match items with
  | [] => None
  | (agent_id, agent) :: rest =>
      if _agent_has_capabilities agent required_capabilities
      then Some agent_id
      else scan_local required_capabilities rest
  end.

(** [for capability in required_capabilities: ...] *)
Fixpoint scan_external (registry : AgentRegistry.t)
    (caps : list string) : option string :=
  match caps with
  | [] => None
  | capability :: rest =>
      match AgentRegistry.discover_agents registry capability with
      | card :: _ => Some (AgentCard.agent_id card)
      | [] => scan_external registry rest
      end
  end.

(** The three steps of [_select_best_agent], each returning from the
    method as soon as it finds an agent. *)
Definition rule_step (r : t) (task_type : string)
    (required_capabilities : list string) : option string :=
  match PyDict.get (routing_rules r) task_type with
  | Some ids => scan_rule (agents r) required_capabilities ids
  | None => None
  end.

Definition local_step (r : t) (required_capabilities : list string)
  : option string :=
  scan_local required_capabilities (PyDict.items (agents r)).

Definition external_step (r : t) (required_capabilities : list string)
  : option string :=
  match required_capabilities with
  | [] => None
  | _ => scan_external (A2AClient.registry (a2a_client r))
           required_capabilities
  end.

(** No effect besides reading the router and the registry: a function
    of the router. *)
Definition _select_best_agent (r : t) (task_type : string)
    (required_capabilities : list string) : option string :=
  match rule_step r task_type required_capabilities with
  | Some agent_id => Some agent_id
  | None =>
      match local_step r required_capabilities with
      | Some agent_id => Some agent_id
      | None => external_step r required_capabilities
      end
  end.

Definition _execute_task_with_agent (agent_id : string) (task : Task.t)
  : Py t string :=
  r <- get_self ;;
  match PyDict.get (agents r) agent_id with
  | Some agent =>
      match process_task agent task with
      | inl e => raise e
      | inr result =>
          ret ("Task completed by " ++ agent_id ++ ": " ++ result)
      end
  | None =>
      result <- zoom a2a_client set_a2a_client
                  (A2AClient.delegate_task agent_id task) ;;
      ret ("Task delegated to " ++ agent_id ++ ": " ++ str_response result)
  end.

(** [if not best_agent] holds for [None] and for the empty string. *)
Definition route_task (task : Task.t) : Py t string :=
  let task_type :=
    match Task.type task with Some ty => ty | None => "general" end in
  let required_capabilities :=
    match Task.capabilities task with Some l => l | None => [] end in
  r <- get_self ;;
  match _select_best_agent r task_type required_capabilities with
  | None => ret ("No suitable agent found for task type: " ++ task_type)
  | Some best_agent =>
      if String.eqb best_agent EmptyString then
        ret ("No suitable agent found for task type: " ++ task_type)
      else
        try_except (_execute_task_with_agent best_agent task)
          (fun e =>
             ret ("Error executing task with agent " ++ best_agent ++ ": "
                  ++ str_exc e))
  end.

Definition register_agent (agent_id : string) (agent : Agent) : Py t unit :=
  modify (fun r =>
    mk (a2a_client r) (PyDict.set (agents r) agent_id agent)
       (routing_rules r)) ;;
  print ("Registered agent: " ++ agent_id).

Definition unregister_agent (agent_id : string) : Py t unit :=
  r <- get_self ;;
  if PyDict.contains (agents r) agent_id then
    modify (fun r =>
      mk (a2a_client r) (PyDict.del (agents r) agent_id)
         (routing_rules r)) ;;
    print ("Unregistered agent: " ++ agent_id)
  else ret tt.

Definition add_routing_rule (task_type : string) (agent_ids : list string)
  : Py t unit :=
  modify (fun r =>
    mk (a2a_client r) (agents r)
       (PyDict.set (routing_rules r) task_type agent_ids)) ;;
  print ("Added routing rule: " ++ task_type ++ " -> " ++ str_list agent_ids).

Definition remove_routing_rule (task_type : string) : Py t unit :=
  r <- get_self ;;
  if PyDict.contains (routing_rules r) task_type then
    modify (fun r =>
      mk (a2a_client r) (agents r) (PyDict.del (routing_rules r) task_type)) ;;
    print ("Removed routing rule for: " ++ task_type)
  else ret tt.

(** No effect besides reading the router: a function of the router. *)
Definition list_capabilities (r : t) : PyDict.t (list string) :=
  fold_left
    (fun listing item =>
       let agent_capabilities :=
         match capabilities (snd item) with
         | Some l => l
         | None => []
         end in
       PyDict.set listing (fst item) agent_capabilities)
    (PyDict.items (agents r)) PyDict.empty.

End AgentRouter.

(* ===================================================================== *)
(** ** orchestration/conversation_manager.py *)
(* ===================================================================== *)

(** [any(keyword in text for keyword in keywords)] *)
Definition any_keyword (keywords : list string) (text : string) : bool :=
  existsb (fun keyword => str_contains keyword text) keywords.

(** [l[start:]] with Python's treatment of negative and out-of-range
    indices. *)
Definition slice_from {A} (l : list A) (start : Z) : list A :=
  let len := Z.of_nat (length l) in
  let i := if (start <? 0)%Z then Z.max (len + start) 0 else Z.min start len in
  skipn (Z.to_nat i) l.

Module ConversationManager.

(** The per-user state dictionary, one field per key. *)
Record State := mkState {
  started_at : nat;
  context : PyDict.t string;
  preferences : PyDict.t string;
  last_activity : nat
}.

Record t := mk {
  router : AgentRouter.t;
  conversation_state : PyDict.t State;
  conversation_history : PyDict.t (list Entry);
  active_sessions : PyDict.t bool
}.

Definition init (router : AgentRouter.t) : t :=
  mk router PyDict.empty PyDict.empty PyDict.empty.

Definition set_router (r : AgentRouter.t) (cm : t) : t :=
  mk r (conversation_state cm) (conversation_history cm)
     (active_sessions cm).

Definition set_conversation_state (d : PyDict.t State) (cm : t) : t :=
  mk (router cm) d (conversation_history cm) (active_sessions cm).

Definition set_conversation_history (d : PyDict.t (list Entry)) (cm : t)
  : t :=
  mk (router cm) (conversation_state cm) d (active_sessions cm).

Definition set_active_sessions (d : PyDict.t bool) (cm : t) : t :=
  mk (router cm) (conversation_state cm) (conversation_history cm) d.

(** [d.get(user_id, [])] *)
Definition history_of (cm : t) (user_id : string) : list Entry :=
  match PyDict.get (conversation_history cm) user_id with
  | Some h => h
  | None => []
  end.

Definition _initialize_conversation (user_id : string) : Py t unit :=
  started <- datetime_now ;;
  last <- datetime_now ;;
  modify (fun cm =>
    set_conversation_state
      (PyDict.set (conversation_state cm) user_id
         (mkState started PyDict.empty PyDict.empty last)) cm) ;;
  modify (fun cm =>
    set_conversation_history
      (PyDict.set (conversation_history cm) user_id []) cm) ;;
  modify (fun cm =>
    set_active_sessions (PyDict.set (active_sessions cm) user_id true) cm) ;;
  print ("Initialized conversation for user: " ++ user_id).

Definition _log_message (user_id role content : string) : Py t unit :=
  cm <- get_self ;;
  (if PyDict.contains (conversation_history cm) user_id then ret tt
   else modify (fun cm =>
          set_conversation_history
            (PyDict.set (conversation_history cm) user_id []) cm)) ;;
  ts <- datetime_now ;;
  let message := mkEntry role content ts in
  modify (fun cm =>
    set_conversation_history
      (PyDict.set (conversation_history cm) user_id
         (history_of cm user_id ++ [message])%list) cm) ;;
  cm <- get_self ;;
  match PyDict.get (conversation_state cm) user_id with
  | Some st =>
      now <- datetime_now ;;
      modify (fun cm =>
        set_conversation_state
          (PyDict.set (conversation_state cm) user_id
             (mkState (started_at st) (context st) (preferences st) now))
          cm)
  | None => ret tt
  end.

(** The keyword table of [_analyze_user_message], in the order of its
    [if]/[elif] chain: task type and capabilities of the first row with a
    keyword occurring in the lower-cased message. *)
Definition classify (message : string) : string * list string :=
  let message_lower := lower message in
  if any_keyword ["search"; "find"; "research"; "look up"] message_lower
  then ("research", ["web_search"; "data_analysis"])
  else if any_keyword ["plan"; "schedule"; "organize"; "break down"]
            message_lower
  then ("planning", ["task_decomposition"; "workflow_planning"])
  else if any_keyword ["analyze"; "report"; "summarize"] message_lower
  then ("analysis", ["data_analysis"; "report_generation"])
  else if any_keyword ["code"; "program"; "implement"; "develop"]
            message_lower
  then ("coding", ["code_generation"; "debugging"])
  else ("general", []).

Definition _analyze_user_message (user_id message : string)
  : Py t Task.t :=
  let '(task_type, capabilities) := classify message in
  cm <- get_self ;;
  let context :=
    match PyDict.get (conversation_state cm) user_id with
    | Some st => context st
    | None => PyDict.empty
    end in
  let history := slice_from (history_of cm user_id) (-5) in
  now <- datetime_now ;;
  ret (Task.mk (Some task_type) message user_id (Some capabilities)
         context history now).

Definition process_user_input (user_id message : string) : Py t string :=
  cm <- get_self ;;
  (if PyDict.contains (conversation_state cm) user_id then ret tt
   else _initialize_conversation user_id) ;;
  _log_message user_id "user" message ;;
  task <- _analyze_user_message user_id message ;;
  response <- zoom router set_router (AgentRouter.route_task task) ;;
  _log_message user_id "assistant" response ;;
  ret response.

(** [limit] is [Optional[int]]; [if limit:] is false for [None] and
    for [0].  No effect besides reading the log: a function of the
    manager. *)
Definition get_conversation_history (cm : t) (user_id : string)
    (limit : option Z) : list Entry :=
  let history := history_of cm user_id in
  match limit with
  | None => history
  | Some n => if (n =? 0)%Z then history else slice_from history (- n)
  end.

Definition update_conversation_context (user_id : string)
    (context_updates : PyDict.t string) : Py t unit :=
  cm <- get_self ;;
  match PyDict.get (conversation_state cm) user_id with
  | Some st =>
      modify (fun cm =>
        set_conversation_state
          (PyDict.set (conversation_state cm) user_id
             (mkState (started_at st)
                (dict_update (context st) context_updates)
                (preferences st) (last_activity st))) cm) ;;
      print ("Updated context for user " ++ user_id ++ ": "
             ++ str_dict context_updates)
  | None => ret tt
  end.

Definition set_user_preferences (user_id : string)
    (preferences : PyDict.t string) : Py t unit :=
  cm <- get_self ;;
  (if PyDict.contains (conversation_state cm) user_id then ret tt
   else _initialize_conversation user_id) ;;
  cm <- get_self ;;
  match PyDict.get (conversation_state cm) user_id with
  | Some st =>
      modify (fun cm =>
        set_conversation_state
          (PyDict.set (conversation_state cm) user_id
             (mkState (started_at st) (context st) preferences
                (last_activity st))) cm) ;;
      print ("Set preferences for user " ++ user_id ++ ": "
             ++ str_dict preferences)
  | None => raise (Exc "KeyError" (repr_str user_id) None)
  end.

Definition end_conversation (user_id : string) : Py t unit :=
  cm <- get_self ;;
  if PyDict.contains (active_sessions cm) user_id then
    modify (fun cm =>
      set_active_sessions (PyDict.set (active_sessions cm) user_id false) cm) ;;
    print ("Ended conversation for user: " ++ user_id)
  else ret tt.

Definition _cleanup_user_data (user_id : string) : Py t unit :=
  cm <- get_self ;;
  (if PyDict.contains (conversation_state cm) user_id then
     modify (fun cm =>
       set_conversation_state (PyDict.del (conversation_state cm) user_id) cm)
   else ret tt) ;;
  cm <- get_self ;;
  (if PyDict.contains (conversation_history cm) user_id then
     modify (fun cm =>
       set_conversation_history
         (PyDict.del (conversation_history cm) user_id) cm)
   else ret tt) ;;
  cm <- get_self ;;
  (if PyDict.contains (active_sessions cm) user_id then
     modify (fun cm =>
       set_active_sessions (PyDict.del (active_sessions cm) user_id) cm)
   else ret tt).

(** Clock readings count seconds: [cutoff_time] is the reading of
    [datetime.now()] less [hours * 3600], and a session is inactive when
    the reading stored as its last activity is below it. *)
Definition cleanup_inactive_conversations (hours : Z) : Py t unit :=
  now <- datetime_now ;;
  let cutoff_time := (Z.of_nat now - hours * 3600)%Z in
  cm <- get_self ;;
  let inactive_users :=
    map fst
      (filter (fun item =>
                 (Z.of_nat (last_activity (snd item)) <? cutoff_time)%Z)
              (PyDict.items (conversation_state cm))) in
  for_each inactive_users
    (fun user_id =>
       _cleanup_user_data user_id ;;
       print ("Cleaned up inactive conversation for user: " ++ user_id)).

End ConversationManager.

(* ===================================================================== *)
(** ** agents/base_agent.py *)
(* ===================================================================== *)

(** The dictionaries [delegate_to_other_agent] answers with:
    [{"success": True, "result": ...}] or
    [{"success": False, "error": ...}]. *)
Inductive Delegation :=
| Succeeded (result : Response)
| Failed (error : string).

Module BaseAgent.

(** The attributes of an agent that its directory, status and memory
    methods use; [class_name] is [self.__class__.__name__], and the values
    kept in the memory are texts. *)
Record t := mk {
  class_name : string;
  agent_id : string;
  a2a_client : A2AClient.t;
  tools : list string;
  memory : PyDict.t string;
  capabilities : list string;
  status : string
}.

(** [__init__] *)
Definition init (class_name agent_id : string) (a2a_client : A2AClient.t)
  : t :=
  mk class_name agent_id a2a_client [] PyDict.empty [] "idle".

Definition set_a2a_client (c : A2AClient.t) (a : t) : t :=
  mk (class_name a) (agent_id a) c (tools a) (memory a) (capabilities a)
     (status a).

Definition set_memory (m : PyDict.t string) (a : t) : t :=
  mk (class_name a) (agent_id a) (a2a_client a) (tools a) m (capabilities a)
     (status a).

(** The card of the agent; the list under ["tools"] of the metadata is
    kept as its [str()]. *)
Definition card_of (a : t) : AgentCard.t :=
  AgentCard.mk (agent_id a) (class_name a)
    ("Agent specialized in " ++ join ", " (capabilities a))
    (capabilities a)
    [("mcp", "stdio");
     ("http", "http://localhost:8000/agents/" ++ agent_id a)]
    [("type", "api_key")]
    [("version", "1.0.0"); ("tools", str_list (tools a))].

Definition _register_with_registry : Py t unit :=
  a <- get_self ;;
  zoom a2a_client set_a2a_client
    (zoom A2AClient.registry A2AClient.set_registry
       (AgentRegistry.register_agent (card_of a))).

Definition update_memory (key value : string) : Py t unit :=
  modify (fun a => set_memory (PyDict.set (memory a) key value) a).

Definition get_memory (a : t) (key : string) : option string :=
  PyDict.get (memory a) key.

Definition clear_memory : Py t unit :=
  modify (set_memory PyDict.empty).

Definition set_status (status : string) : Py t unit :=
  modify (fun a =>
    mk (class_name a) (agent_id a) (a2a_client a) (tools a) (memory a)
       (capabilities a) status) ;;
  a <- get_self ;;
  zoom a2a_client set_a2a_client
    (A2AClient.broadcast_status
       [("agent_id", agent_id a); ("status", status)]).

Definition delegate_to_other_agent (target_agent : string) (task : Task.t)
  : Py t Delegation :=
  try_except
    (result <- zoom a2a_client set_a2a_client
                 (A2AClient.delegate_task target_agent task) ;;
     ret (Succeeded result))
    (fun e => ret (Failed (str_exc e))).

(** The loop of [collaborate_with_agents] over the ids still to visit,
    with the dictionary [results] built so far. *)
Fixpoint collaborate_loop (agent_ids : list string) (task : Task.t)
    (results : PyDict.t Delegation) : Py t (PyDict.t Delegation) :=
  match agent_ids with
  | [] => ret results
  | agent_id :: rest =>
      results' <-
        try_except
          (result <- delegate_to_other_agent agent_id task ;;
           ret (PyDict.set results agent_id result))
          (fun e => ret (PyDict.set results agent_id (Failed (str_exc e)))) ;;
      collaborate_loop rest task results'
  end.

Definition collaborate_with_agents (agent_ids : list string) (task : Task.t)
  : Py t (PyDict.t Delegation) :=
  collaborate_loop agent_ids task PyDict.empty.

Definition shutdown : Py t unit :=
  set_status "shutting_down" ;;
  a <- get_self ;;
  zoom a2a_client set_a2a_client
    (zoom A2AClient.registry A2AClient.set_registry
       (AgentRegistry.unregister_agent (agent_id a))) ;;
  clear_memory ;;
  a <- get_self ;;
  print ("Agent " ++ agent_id a ++ " shut down successfully").

End BaseAgent.

(* ===================================================================== *)
(** ** Vocabulary of the statements *)
(* ===================================================================== *)

(** The text is ASCII: every character is below 128. *)
Definition is_ascii (s : string) : bool :=
  forallb (fun c => (nat_of_ascii c <? 128)%nat) (list_ascii_of_string s).

(** The message contains some spelling, in any mix of upper and lower
    case, of one of the keywords. *)
Definition mentions (keywords : list string) (message : string) : Prop :=
  exists keyword pre mid post,
    In keyword keywords /\
    message = pre ++ mid ++ post /\
    lower mid = keyword.

(** What an agent advertises: [getattr(agent, 'capabilities', [])]. *)
Definition advertised (agent : AgentRouter.Agent) : list string :=
  match AgentRouter.capabilities agent with Some l => l | None => [] end.

(** [agent_id] names a local handle whose advertised capabilities are a
    superset of the required ones. *)
Definition local_match (r : AgentRouter.t) (required : list string)
    (agent_id : string) : Prop :=
  exists agent,
    PyDict.get (AgentRouter.agents r) agent_id = Some agent /\
    forall cap, In cap required -> In cap (advertised agent).

(** The rule scan in the words of the specification: the first id of the
    rule list that is either a local handle with all required capabilities
    or, when it is not local, an id the directory resolves to a record with
    all required capabilities. *)
Definition rule_scan_as_specified (r : AgentRouter.t)
    (required : list string) (ids : list string) : option string :=
  find (fun agent_id =>
          match PyDict.get (AgentRouter.agents r) agent_id with
          | Some agent =>
              forallb (fun cap => str_in cap (advertised agent)) required
          | None =>
              match AgentRegistry.get_agent
                      (A2AClient.registry (AgentRouter.a2a_client r))
                      agent_id with
              | Some card =>
                  forallb (fun cap => str_in cap (AgentCard.capabilities card))
                          required
              | None => false
              end
          end) ids.

(** The envelopes handed to the transport, in order. *)
Definition transmissions (tr : list Event) : list (AgentCard.t * Message) :=
  flat_map (fun ev =>
              match ev with
              | Transmitted card message => [(card, message)]
              | Printed _ => []
              end) tr.

(** Everything a broadcast of [message] hands over and prints for the
    subscribers of a list, in order, [now] being the next reading of the
    clock: nothing at all for a subscriber the directory does not know;
    for a resolved one the hand-over of the envelope, followed by the
    report of the failure when the transport raises. *)
Fixpoint broadcast_events (c : A2AClient.t) (message : Message)
    (listener_ids : list string) (now : nat) : list Event :=
  match listener_ids with
  | [] => []
  | listener_id :: rest =>
      match AgentRegistry.get_agent (A2AClient.registry c) listener_id with
      | None => broadcast_events c message rest now
      | Some card =>
          (Transmitted card message
           :: match A2AClient.transport c card message now with
              | inl e =>
                  [Printed ("Failed to send status to " ++ listener_id
                            ++ ": " ++ str_exc e)]
              | inr _ => []
              end)
          ++ broadcast_events c message rest (S now)
      end
  end.

(** The subscribers of a client that its directory resolves, in the
    order of the subscriber table, each with its record. *)
Definition resolved_listeners (c : A2AClient.t)
  : list (string * AgentCard.t) :=
  flat_map (fun listener_id =>
              match AgentRegistry.get_agent (A2AClient.registry c)
                      listener_id with
              | Some card => [(listener_id, card)]
              | None => []
              end)
           (PyDict.keys (A2AClient.status_listeners c)).

(** Role and content of a log entry. *)
Definition said (e : Entry) : string * string := (role e, content e).

(** The directory after registering the cards of a list, in order, in
    an empty directory. *)
Definition registry_after (cards : list AgentCard.t) : AgentRegistry.t :=
  fold_left (fun r card =>
               self (AgentRegistry.register_agent card r (mkWorld 0 [])))
            cards AgentRegistry.init.

(** [card] is the last registration of its id in the list. *)
Definition latest (cards : list AgentCard.t) (card : AgentCard.t) : Prop :=
  exists pre post,
    cards = (pre ++ card :: post)%list /\
    forall x, In x post -> AgentCard.agent_id x <> AgentCard.agent_id card.


(** The message is of a kind that [handle_incoming_message] puts in the
    inbox: a task delegation, or a direct message with its content. *)
Definition enqueued (message : Message) : Prop :=
  msg_type message = "task_delegation" \/
  (msg_type message = "direct_message" /\
   exists text, msg_payload message = ContentPayload text).

(** Handling the messages of a list, in order. *)
Definition handle_all (messages : list Message) : Py A2AClient.t unit :=
  for_each messages
    (fun message => A2AClient.handle_incoming_message message ;; ret tt).

(** [n] calls of [receive_messages] in a row, with what they return. *)
Fixpoint receive_many (n : nat) : Py A2AClient.t (list (option Message)) :=
  match n with
  | 0 => ret []
  | S n' =>
      message <- A2AClient.receive_messages ;;
      rest <- receive_many n' ;;
      ret (message :: rest)
  end.

(** The manager [cm'] holds for the user what [cm] holds: the same
    session state, the same log, the same activity flag. *)
Definition same_session (user_id : string) (cm cm' : ConversationManager.t)
  : Prop :=
  PyDict.get (ConversationManager.conversation_state cm') user_id
    = PyDict.get (ConversationManager.conversation_state cm) user_id /\
  PyDict.get (ConversationManager.conversation_history cm') user_id
    = PyDict.get (ConversationManager.conversation_history cm) user_id /\
  PyDict.get (ConversationManager.active_sessions cm') user_id
    = PyDict.get (ConversationManager.active_sessions cm) user_id.

(** The manager holds nothing for the user. *)
Definition no_session (user_id : string) (cm : ConversationManager.t)
  : Prop :=
  PyDict.get (ConversationManager.conversation_state cm) user_id = None /\
  PyDict.get (ConversationManager.conversation_history cm) user_id = None /\
  PyDict.get (ConversationManager.active_sessions cm) user_id = None.

(* ===================================================================== *)
(** ** Concrete objects used in examples *)
(* ===================================================================== *)

Module Demo.

Definition world0 : World := mkWorld 0 [].

Definition card (agent_id : string) (caps : list string) : AgentCard.t :=
  AgentCard.mk agent_id agent_id EmptyString caps [] [] [].

Definition agent (caps : list string) (answer : string)
  : AgentRouter.Agent :=
  AgentRouter.mkAgent (Some caps) (fun _ => inr answer).

Definition task (type : string) (caps : list string) : Task.t :=
  Task.mk (Some type) EmptyString "user" (Some caps) [] [] 0.

(** A directory with one remote record, a router with one local agent
    and a rule that lists the remote id before the local one. *)
Definition registry1 : AgentRegistry.t :=
  AgentRegistry.mk [("remote-1", card "remote-1" ["web_search"])].

Definition client1 : A2AClient.t := A2AClient.init "system" registry1.

Definition router1 : AgentRouter.t :=
  AgentRouter.mk client1
    [("local-2", agent ["web_search"] "done")]
    [("research", ["remote-1"; "local-2"])].

(** Nothing anywhere: no local agent, no rule, an empty directory. *)
Definition router_empty : AgentRouter.t :=
  AgentRouter.init (A2AClient.init "system" AgentRegistry.init).

(** No local agent; the directory knows one agent that advertises
    ["data_analysis"] only. *)
Definition registry_partial : AgentRegistry.t :=
  AgentRegistry.mk [("analyst", card "analyst" ["data_analysis"])].

Definition router_remote_only : AgentRouter.t :=
  AgentRouter.init (A2AClient.init "system" registry_partial).

(** A transport that refuses every envelope. *)
Definition refusing_transport
  (target_card : AgentCard.t) (message : Message) (now : nat)
  : PyExc + Response :=
  inl (Exc "ConnectionError" "connection refused" None).

Definition registry2 : AgentRegistry.t :=
  AgentRegistry.mk [("remote-1", card "remote-1" ["web_search"]);
                    ("remote-2", card "remote-2" ["debugging"])].

(** A client over a refusing transport, with three subscribers, one of
    them unknown to the directory. *)
Definition client_refused : A2AClient.t :=
  A2AClient.mk "system" registry2
    [("remote-1", true); ("ghost", true); ("remote-2", true)] []
    refusing_transport.

(** A client over the simulated transport, with a subscriber unknown to
    the directory and one known to it. *)
Definition client_ghost : A2AClient.t :=
  A2AClient.mk "system" registry1
    [("ghost", true); ("remote-1", true)] [] A2AClient.simulated_transport.

Definition status_idle : PyDict.t string :=
  [("agent_id", "system"); ("status", "idle")].

Definition delegation (sender : string) : Message :=
  mkMessage sender (Some "system") "task_delegation"
    (TaskPayload (task "research" [])) 0 (Some (sender, "system", 1)).

Definition direct (sender text : string) : Message :=
  mkMessage sender (Some "system") "direct_message"
    (ContentPayload text) 0 (Some (sender, "system", 1)).

(** A directory, as [from_json] can load one, that holds the record of
    analyst under the key alias. *)
Definition router_alias : AgentRouter.t :=
  AgentRouter.init
    (A2AClient.init "system"
       (AgentRegistry.mk [("alias", card "analyst" ["data_analysis"])])).

(** An agent of class ResearchAgent over the refusing client, with two
    capabilities and one remembered fact. *)
Definition researcher : BaseAgent.t :=
  BaseAgent.mk "ResearchAgent" "remote-1" client_refused ["web_search"]
    [("topic", "cats")] ["web_search"; "data_analysis"] "idle".

(** A router whose only local agent is registered under the empty id. *)
Definition router_empty_id : AgentRouter.t :=
  AgentRouter.mk (A2AClient.init "system" AgentRegistry.init)
    [(EmptyString, agent [] "done")] [].

(** A fresh manager over [router1], and one that has logged three
    entries for the user alice. *)
Definition manager0 : ConversationManager.t :=
  ConversationManager.init router1.

Definition manager_alice : ConversationManager.t :=
  ConversationManager.mk router1
    [("alice", ConversationManager.mkState 0 [] [] 6)]
    [("alice", [mkEntry "user" "hello" 2; mkEntry "assistant" "hi" 4;
                mkEntry "user" "bye" 6])]
    [("alice", true)].

End Demo.

(* ===================================================================== *)
(** * Properties *)
(* ===================================================================== *)

(** ** Dictionaries *)

Section PyDictFacts.
Context {V : Type}.
Implicit Types (d : PyDict.t V) (k : string) (v : V).

Lemma get_set_eq d k v : PyDict.get (PyDict.set d k v) k = Some v.
Proof.
  induction d as [|[k' v'] d IH]; simpl.
  - now rewrite String.eqb_refl.
  - destruct (String.eqb_spec k' k) as [->|Hne]; simpl.
    + now rewrite String.eqb_refl.
    + apply String.eqb_neq in Hne. now rewrite Hne.
Qed.

Lemma get_set_ne d k k' v :
  k <> k' -> PyDict.get (PyDict.set d k v) k' = PyDict.get d k'.
Proof.
  intros Hne. induction d as [|[k0 v0] d IH]; simpl.
  - apply String.eqb_neq in Hne. now rewrite Hne.
  - destruct (String.eqb_spec k0 k) as [->|Hk]; simpl.
    + apply String.eqb_neq in Hne. now rewrite Hne.
    + now rewrite IH.
Qed.

Lemma get_del_eq d k : PyDict.get (PyDict.del d k) k = None.
Proof.
  induction d as [|[k' v'] d IH]; simpl; [reflexivity|].
  destruct (String.eqb_spec k' k) as [->|Hne]; simpl; [exact IH|].
  apply String.eqb_neq in Hne. now rewrite Hne.
Qed.

Lemma get_del_ne d k k' :
  k <> k' -> PyDict.get (PyDict.del d k) k' = PyDict.get d k'.
Proof.
  intros Hne. induction d as [|[k0 v0] d IH]; simpl; [reflexivity|].
  destruct (String.eqb_spec k0 k) as [->|Hk]; simpl.
  - apply String.eqb_neq in Hne. now rewrite Hne.
  - now rewrite IH.
Qed.

Lemma del_absent d k : PyDict.get d k = None -> PyDict.del d k = d.
Proof.
  induction d as [|[k' v'] d IH]; simpl; [reflexivity|].
  destruct (String.eqb_spec k' k) as [->|Hne]; simpl; [discriminate|].
  intros H. now rewrite (IH H).
Qed.

Lemma get_Some_In_keys d k v :
  PyDict.get d k = Some v -> In k (PyDict.keys d).
Proof.
  induction d as [|[k' v'] d IH]; simpl; [discriminate|].
  destruct (String.eqb_spec k' k) as [->|Hne]; auto.
Qed.

Lemma get_None_not_In_keys d k :
  PyDict.get d k = None <-> ~ In k (PyDict.keys d).
Proof.
  induction d as [|[k' v'] d IH]; simpl; [tauto|].
  destruct (String.eqb_spec k' k) as [->|Hne].
  - split; [discriminate | intros H; exfalso; auto].
  - rewrite IH. tauto.
Qed.

Lemma keys_set_present d k v :
  In k (PyDict.keys d) -> PyDict.keys (PyDict.set d k v) = PyDict.keys d.
Proof.
  induction d as [|[k' v'] d IH]; simpl; [tauto|].
  destruct (String.eqb_spec k' k) as [->|Hne]; simpl; [reflexivity|].
  intros [H|H]; [contradiction|]. now rewrite (IH H).
Qed.

Lemma keys_set_absent d k v :
  ~ In k (PyDict.keys d) ->
  PyDict.keys (PyDict.set d k v) = (PyDict.keys d ++ [k])%list.
Proof.
  induction d as [|[k' v'] d IH]; simpl; [reflexivity|].
  destruct (String.eqb_spec k' k) as [->|Hne]; simpl; [tauto|].
  intros H. rewrite IH; tauto.
Qed.

(** Assignment and deletion keep the keys of a dictionary distinct. *)
Lemma wf_set d k v : PyDict.wf d -> PyDict.wf (PyDict.set d k v).
Proof.
  unfold PyDict.wf. intros Hwf.
  destruct (in_dec string_dec k (PyDict.keys d)) as [Hin|Hout].
  - now rewrite keys_set_present.
  - rewrite keys_set_absent by assumption.
    apply NoDup_app; [assumption | repeat constructor; simpl; tauto |].
    intros x Hx [<-|[]]. contradiction.
Qed.

Lemma wf_del d k : PyDict.wf d -> PyDict.wf (PyDict.del d k).
Proof.
  unfold PyDict.wf, PyDict.keys, PyDict.del.
  induction d as [|[k' v'] d IH]; simpl; intros Hwf; [constructor|].
  inversion Hwf as [|? ? Hnin Hnd]; subst.
  destruct (String.eqb k' k); simpl; [auto|].
  constructor; [|auto].
  intros Hin. apply Hnin. apply in_map_iff in Hin as [[k0 v0] [<- Hin]].
  apply filter_In in Hin as [Hin _]. apply in_map_iff. now exists (k0, v0).
Qed.

Lemma wf_empty : PyDict.wf (@PyDict.empty V).
Proof. constructor. Qed.
End PyDictFacts.

(** ** The directory *)

(** C8.  For every directory state and record R, [register_agent R] never
    fails and [get_agent R.agent_id] then returns R, whatever record was
    stored under that id before (last writer wins); for every directory
    state and id, [unregister_agent id] never fails and [get_agent id] then
    returns absent; and on a directory that has no record under an id,
    [unregister_agent] of that id changes nothing at all. *)
Theorem registry_register_get_unregister :
  (forall (r : AgentRegistry.t) (R : AgentCard.t) (w : World),
      let res := AgentRegistry.register_agent R r w in
      outcome res = inr tt /\
      AgentRegistry.get_agent (self res) (AgentCard.agent_id R) = Some R) /\
  (forall (r : AgentRegistry.t) (id : string) (w : World),
      let res := AgentRegistry.unregister_agent id r w in
      outcome res = inr tt /\
      AgentRegistry.get_agent (self res) id = None) /\
  (forall (r : AgentRegistry.t) (id : string) (w : World),
      AgentRegistry.get_agent r id = None ->
      AgentRegistry.unregister_agent id r w = mkRes (inr tt) r w).
Proof.
  split; [|split].
  - intros [d] R w. cbn. split; [reflexivity|]. apply get_set_eq.
  - intros [d] id w. unfold AgentRegistry.unregister_agent, PyDict.contains.
    cbn. destruct (PyDict.get d id) eqn:E; cbn.
    + split; [reflexivity|]. apply get_del_eq.
    + split; [reflexivity|]. exact E.
  - intros [d] id w H. unfold AgentRegistry.unregister_agent, PyDict.contains.
    cbn in *. now rewrite H.
Qed.

Lemma registry_register_get_unregister_witness :
  AgentRegistry.get_agent Demo.registry1 "ghost" = None /\
  AgentRegistry.unregister_agent "ghost" Demo.registry1 Demo.world0
    = mkRes (inr tt) Demo.registry1 Demo.world0.
Proof.
  split; [reflexivity|].
  apply (proj2 (proj2 registry_register_get_unregister)). reflexivity.
Defined.

(** ** Reading the conversation log *)

Lemma slice_from_last {A} (l : list A) (n : Z) :
  (0 < n)%Z ->
  slice_from l (- n) = skipn (length l - Z.to_nat n) l.
Proof.
  intros Hn. unfold slice_from.
  replace (- n <? 0)%Z with true by (symmetry; apply Z.ltb_lt; lia).
  f_equal. lia.
Qed.

(** C10.  For every user with a non-empty log, the limit 0 gives the same
    list as no limit, the whole log, which is not empty; and a positive
    limit n gives the last n entries: a suffix of the log, of length n when
    the log has at least n entries and the whole log otherwise. *)
Theorem history_limit_zero_and_positive
    (cm : ConversationManager.t) (u : string) :
  ConversationManager.get_conversation_history cm u None <> [] ->
  let full := ConversationManager.get_conversation_history cm u None in
  ConversationManager.get_conversation_history cm u (Some 0%Z) = full /\
  ConversationManager.get_conversation_history cm u (Some 0%Z) <> [] /\
  forall n : Z, (0 < n)%Z ->
    let last := ConversationManager.get_conversation_history cm u (Some n) in
    (exists older, full = (older ++ last)%list) /\
    length last = Nat.min (Z.to_nat n) (length full).
Proof.
  unfold ConversationManager.get_conversation_history. cbn.
  intros Hne. split; [reflexivity|]. split; [exact Hne|].
  intros n Hn.
  replace (n =? 0)%Z with false by (symmetry; apply Z.eqb_neq; lia).
  rewrite slice_from_last by assumption.
  set (h := ConversationManager.history_of cm u).
  split.
  - exists (firstn (length h - Z.to_nat n) h).
    symmetry. apply firstn_skipn.
  - rewrite length_skipn. lia.
Qed.

Lemma history_limit_zero_and_positive_witness :
  ConversationManager.get_conversation_history Demo.manager_alice
    "alice" (Some 0%Z)
  = [mkEntry "user" "hello" 2; mkEntry "assistant" "hi" 4;
     mkEntry "user" "bye" 6] /\
  length (ConversationManager.get_conversation_history
            Demo.manager_alice "alice" (Some 2%Z)) = 2.
Proof.
  assert (Hne : ConversationManager.get_conversation_history
                  Demo.manager_alice "alice" None <> [])
    by discriminate.
  destruct (history_limit_zero_and_positive Demo.manager_alice "alice"
              Hne) as [H0 [_ Hn]].
  split; [exact H0|].
  exact (proj2 (Hn 2%Z eq_refl)).
Defined.

(** ** Classification of a message *)

Lemma prefix_iff (a s : string) :
  String.prefix a s = true <-> exists post, s = a ++ post.
Proof.
  revert s. induction a as [|c a IH]; intros s.
  - split; [intros _; now exists s | intros _; now destruct s].
  - destruct s as [|c' s]; simpl.
    + split; [discriminate | intros [post H]; discriminate].
    + destruct (Ascii.ascii_dec c c') as [->|Hne].
      * rewrite IH. split; intros [post H]; exists post; congruence.
      * split; [discriminate|]. intros [post H]. congruence.
Qed.

Lemma str_contains_eq (sub s : string) :
  str_contains sub s =
  if String.prefix sub s then true
  else match s with
       | EmptyString => false
       | String _ s' => str_contains sub s'
       end.
Proof. destruct s; reflexivity. Qed.

Lemma str_contains_iff (sub s : string) :
  str_contains sub s = true <-> exists pre post, s = pre ++ sub ++ post.
Proof.
  induction s as [|c s IH]; rewrite str_contains_eq.
  - destruct (String.prefix sub EmptyString) eqn:E.
    + split; [intros _|reflexivity].
      apply prefix_iff in E as [post E]. now exists EmptyString, post.
    + split; [discriminate|]. intros [pre [post H]].
      destruct pre; [|discriminate]. simpl in H.
      assert (String.prefix sub EmptyString = true) by (apply prefix_iff; eauto).
      congruence.
  - destruct (String.prefix sub (String c s)) eqn:E.
    + split; [intros _|reflexivity].
      apply prefix_iff in E as [post E]. now exists EmptyString, post.
    + rewrite IH. split.
      * intros [pre [post ->]]. now exists (String c pre), post.
      * intros [pre [post H]]. destruct pre as [|c' pre]; simpl in H.
        -- assert (String.prefix sub (String c s) = true)
             by (apply prefix_iff; eauto).
           congruence.
        -- injection H as _ ->. eauto.
Qed.

Lemma lower_app (a b : string) : lower (a ++ b) = lower a ++ lower b.
Proof. induction a as [|c a IH]; simpl; [reflexivity | now rewrite IH]. Qed.

Lemma lower_split (m a b : string) :
  lower m = a ++ b -> exists a' b', m = a' ++ b' /\ lower a' = a /\ lower b' = b.
Proof.
  revert m. induction a as [|c a IH]; intros m H; simpl in H.
  - now exists EmptyString, m.
  - destruct m as [|c' m]; simpl in H; [discriminate|].
    injection H as Hc H. destruct (IH m H) as [a' [b' [-> [Ha Hb]]]].
    exists (String c' a'), b'. simpl. now rewrite Hc, Ha.
Qed.

(** The keyword test of the code is the case-insensitive occurrence. *)
Lemma any_keyword_iff (keywords : list string) (message : string) :
  any_keyword keywords (lower message) = true <-> mentions keywords message.
Proof.
  unfold any_keyword, mentions. rewrite existsb_exists. split.
  - intros [kw [Hin Hc]]. apply str_contains_iff in Hc as [pre [post Hc]].
    apply lower_split in Hc as [pre' [rest [-> [Hpre Hrest]]]].
    apply lower_split in Hrest as [mid [post' [-> [Hmid Hpost]]]].
    now exists kw, pre', mid, post'.
  - intros [kw [pre [mid [post [Hin [-> Hmid]]]]]].
    exists kw. split; [assumption|]. apply str_contains_iff.
    exists (lower pre), (lower post). now rewrite !lower_app, Hmid.
Qed.

Lemma any_keyword_false (keywords : list string) (message : string) :
  any_keyword keywords (lower message) = false <-> ~ mentions keywords message.
Proof.
  rewrite <- any_keyword_iff. destruct (any_keyword _ _); split; congruence.
Qed.

(** C6.  For every user id and every message of ASCII text, the task
    built from the message carries that message and user id, and its type
    and capabilities follow the ordered keyword table with
    case-insensitive occurrence and the first matching row winning:
    research, else planning, else analysis, else coding, else general with
    no required capability. *)
Theorem classification_keyword_table
    (cm : ConversationManager.t) (user_id message : string) (w : World) :
  is_ascii message = true ->
  exists task,
    outcome (ConversationManager._analyze_user_message user_id message cm w)
      = inr task /\
    Task.message task = message /\
    Task.user_id task = user_id /\
    let research := mentions ["search"; "find"; "research"; "look up"] message in
    let planning :=
      mentions ["plan"; "schedule"; "organize"; "break down"] message in
    let analysis := mentions ["analyze"; "report"; "summarize"] message in
    let coding := mentions ["code"; "program"; "implement"; "develop"] message in
    (research ->
       Task.type task = Some "research" /\
       Task.capabilities task = Some ["web_search"; "data_analysis"]) /\
    (~ research -> planning ->
       Task.type task = Some "planning" /\
       Task.capabilities task
         = Some ["task_decomposition"; "workflow_planning"]) /\
    (~ research -> ~ planning -> analysis ->
       Task.type task = Some "analysis" /\
       Task.capabilities task = Some ["data_analysis"; "report_generation"]) /\
    (~ research -> ~ planning -> ~ analysis -> coding ->
       Task.type task = Some "coding" /\
       Task.capabilities task = Some ["code_generation"; "debugging"]) /\
    (~ research -> ~ planning -> ~ analysis -> ~ coding ->
       Task.type task = Some "general" /\
       Task.capabilities task = Some []).
Proof.
  intros _.
  unfold ConversationManager._analyze_user_message,
    ConversationManager.classify.
  destruct (any_keyword ["search"; "find"; "research"; "look up"] _) eqn:E1;
  [|destruct (any_keyword ["plan"; "schedule"; "organize"; "break down"] _)
      eqn:E2;
    [|destruct (any_keyword ["analyze"; "report"; "summarize"] _) eqn:E3;
      [|destruct (any_keyword ["code"; "program"; "implement"; "develop"] _)
          eqn:E4]]];
  repeat match goal with
         | H : any_keyword _ _ = true |- _ => apply any_keyword_iff in H
         | H : any_keyword _ _ = false |- _ => apply any_keyword_false in H
         end;
  (eexists; split; [reflexivity|]; cbn;
   repeat split; intros; try reflexivity; contradiction).
Qed.

Lemma classification_keyword_table_witness :
  is_ascii "Plan a project" = true /\
  exists task,
    outcome (ConversationManager._analyze_user_message "alice"
               "Plan a project" Demo.manager0 Demo.world0)
      = inr task /\
    Task.type task = Some "planning" /\
    Task.capabilities task = Some ["task_decomposition"; "workflow_planning"].
Proof.
  split; [reflexivity|].
  destruct (classification_keyword_table Demo.manager0 "alice"
              "Plan a project" Demo.world0 eq_refl)
    as [task [Ho [_ [_ [_ [Hplanning _]]]]]].
  exists task. split; [exact Ho|]. apply Hplanning.
  - apply any_keyword_false. reflexivity.
  - apply any_keyword_iff. reflexivity.
Defined.

(** ** Selection of an agent *)

Lemma str_in_iff (x : string) (xs : list string) :
  str_in x xs = true <-> In x xs.
Proof.
  unfold str_in. rewrite existsb_exists. split.
  - intros [y [Hin Heq]]. apply String.eqb_eq in Heq. now subst.
  - intros Hin. exists x. split; [assumption | apply String.eqb_refl].
Qed.

Lemma agent_has_capabilities_iff
    (agent : AgentRouter.Agent) (required : list string) :
  AgentRouter._agent_has_capabilities agent required = true <->
  forall cap, In cap required -> In cap (advertised agent).
Proof.
  unfold AgentRouter._agent_has_capabilities, advertised.
  destruct required as [|c required].
  - split; [intros _ cap [] | reflexivity].
  - rewrite forallb_forall. split; intros H cap Hin.
    + apply str_in_iff. now apply H.
    + apply str_in_iff. now apply H.
Qed.

Lemma local_match_dec (r : AgentRouter.t) (required : list string)
    (agent_id : string) :
  local_match r required agent_id <->
  match PyDict.get (AgentRouter.agents r) agent_id with
  | Some agent => AgentRouter._agent_has_capabilities agent required = true
  | None => False
  end.
Proof.
  unfold local_match. destruct (PyDict.get _ agent_id) as [agent|].
  - rewrite agent_has_capabilities_iff. split.
    + intros [a [Ha H]]. now injection Ha as <-.
    + intros H. eauto.
  - split; [intros [a [Ha _]]; discriminate | tauto].
Qed.

(** The rule scan returns the first local match of the list. *)
Lemma scan_rule_first (r : AgentRouter.t) (required pre post : list string)
    (agent_id : string) :
  local_match r required agent_id ->
  (forall x, In x pre -> ~ local_match r required x) ->
  AgentRouter.scan_rule (AgentRouter.agents r) required
    (pre ++ agent_id :: post) = Some agent_id.
Proof.
  intros Hm Hpre. induction pre as [|x pre IH]; simpl.
  - apply local_match_dec in Hm.
    destruct (PyDict.get _ agent_id); [now rewrite Hm | contradiction].
  - assert (Hx : ~ local_match r required x) by (apply Hpre; now left).
    rewrite local_match_dec in Hx.
    destruct (PyDict.get _ x).
    + destruct (AgentRouter._agent_has_capabilities _ _); [tauto|].
      apply IH. intros y Hy. apply Hpre. now right.
    + apply IH. intros y Hy. apply Hpre. now right.
Qed.

Lemma scan_rule_none (r : AgentRouter.t) (required ids : list string) :
  (forall x, In x ids -> ~ local_match r required x) ->
  AgentRouter.scan_rule (AgentRouter.agents r) required ids = None.
Proof.
  induction ids as [|x ids IH]; simpl; intros H; [reflexivity|].
  assert (Hx : ~ local_match r required x) by (apply H; now left).
  rewrite local_match_dec in Hx.
  destruct (PyDict.get _ x).
  - destruct (AgentRouter._agent_has_capabilities _ _); [tauto|].
    apply IH. intros y Hy. apply H. now right.
  - apply IH. intros y Hy. apply H. now right.
Qed.

(** Whatever the rule scan returns is in the list and is a local match. *)
Lemma scan_rule_sound (r : AgentRouter.t) (required ids : list string)
    (agent_id : string) :
  AgentRouter.scan_rule (AgentRouter.agents r) required ids = Some agent_id ->
  In agent_id ids /\ local_match r required agent_id.
Proof.
  induction ids as [|x ids IH]; simpl; [discriminate|].
  destruct (PyDict.get (AgentRouter.agents r) x) as [agent|] eqn:Ex.
  - destruct (AgentRouter._agent_has_capabilities agent required) eqn:Ec.
    + intros H. injection H as <-. split; [now left|].
      apply local_match_dec. now rewrite Ex.
    + intros H. destruct (IH H). auto.
  - intros H. destruct (IH H). auto.
Qed.

(** C1 (as amended).  For every task whose type has a rule-table entry,
    selection scans the entry's list in order and picks the first id that
    is a local handle advertising every required capability; an id that
    is not a local handle is passed over, so whatever this step picks is a
    local handle of the list, and when no id of the list is a local match
    the step picks nothing. *)
Theorem rule_scan_picks_first_local_match
    (r : AgentRouter.t) (task_type : string) (required ids : list string) :
  PyDict.get (AgentRouter.routing_rules r) task_type = Some ids ->
  (forall pre agent_id post,
      ids = (pre ++ agent_id :: post)%list ->
      local_match r required agent_id ->
      (forall x, In x pre -> ~ local_match r required x) ->
      AgentRouter._select_best_agent r task_type required = Some agent_id) /\
  (forall agent_id,
      AgentRouter.rule_step r task_type required = Some agent_id ->
      In agent_id ids /\
      PyDict.contains (AgentRouter.agents r) agent_id = true /\
      local_match r required agent_id) /\
  ((forall x, In x ids -> ~ local_match r required x) ->
   AgentRouter.rule_step r task_type required = None).
Proof.
  intros Hrule.
  unfold AgentRouter._select_best_agent, AgentRouter.rule_step.
  rewrite Hrule. split; [|split].
  - intros pre agent_id post -> Hm Hpre.
    now rewrite (scan_rule_first r required pre post agent_id Hm Hpre).
  - intros agent_id H. apply scan_rule_sound in H as [Hin Hm].
    split; [assumption|]. split; [|assumption].
    destruct Hm as [agent [Ha _]]. unfold PyDict.contains. now rewrite Ha.
  - apply scan_rule_none.
Qed.

Lemma rule_scan_picks_first_local_match_witness :
  local_match Demo.router1 ["web_search"] "local-2" /\
  AgentRouter._select_best_agent Demo.router1 "research" ["web_search"]
    = Some "local-2".
Proof.
  assert (Hm : local_match Demo.router1 ["web_search"] "local-2")
    by (apply local_match_dec; reflexivity).
  split; [exact Hm|].
  apply (proj1 (rule_scan_picks_first_local_match Demo.router1
                  "research" ["web_search"] ["remote-1"; "local-2"]
                  eq_refl) ["remote-1"] "local-2" []).
  - reflexivity.
  - exact Hm.
  - intros x [<-|[]] H. apply local_match_dec in H. exact H.
Defined.

(** C1 (as stated) fails: with the rule list [remote-1, local-2], where
    remote-1 is not a local handle but is resolved by the directory to a
    record with the required capability, the scan described by the claim
    picks remote-1, whereas the code passes it over and picks local-2. *)
Lemma rule_scan_skips_resolvable_remote_id :
  PyDict.get (AgentRouter.routing_rules Demo.router1) "research"
    = Some ["remote-1"; "local-2"] /\
  rule_scan_as_specified Demo.router1 ["web_search"]
    ["remote-1"; "local-2"] = Some "remote-1" /\
  AgentRouter.rule_step Demo.router1 "research" ["web_search"]
    = Some "local-2" /\
  AgentRouter._select_best_agent Demo.router1 "research" ["web_search"]
    <> rule_scan_as_specified Demo.router1 ["web_search"]
         ["remote-1"; "local-2"].
Proof. repeat split. discriminate. Qed.

Lemma get_Some_In {V} (d : PyDict.t V) (k : string) (v : V) :
  PyDict.get d k = Some v -> In (k, v) (PyDict.items d).
Proof.
  unfold PyDict.items. induction d as [|[k' v'] d IH]; simpl; [discriminate|].
  destruct (String.eqb_spec k' k) as [->|Hne].
  - intros H. injection H as ->. now left.
  - auto.
Qed.

Lemma scan_local_none (required : list string)
    (items : list (string * AgentRouter.Agent)) :
  (forall id agent, In (id, agent) items ->
     ~ (forall cap, In cap required -> In cap (advertised agent))) ->
  AgentRouter.scan_local required items = None.
Proof.
  induction items as [|[id agent] items IH]; simpl; intros H; [reflexivity|].
  destruct (AgentRouter._agent_has_capabilities agent required) eqn:E.
  - exfalso. apply (H id agent); [now left|].
    exact (proj1 (agent_has_capabilities_iff agent required) E).
  - apply IH. intros id' agent' Hin. apply (H id' agent'). now right.
Qed.

(** When no local handle advertises all the required capabilities, the
    rule scan and the local scan both come back empty. *)
Lemma no_local_match_steps (r : AgentRouter.t) (task_type : string)
    (required : list string) :
  (forall id agent, In (id, agent) (PyDict.items (AgentRouter.agents r)) ->
     ~ (forall cap, In cap required -> In cap (advertised agent))) ->
  AgentRouter.rule_step r task_type required = None /\
  AgentRouter.local_step r required = None.
Proof.
  intros H. split.
  - unfold AgentRouter.rule_step.
    destruct (PyDict.get _ task_type) as [ids|]; [|reflexivity].
    apply scan_rule_none. intros x _ [agent [Ha Hc]].
    apply get_Some_In in Ha. exact (H x agent Ha Hc).
  - now apply scan_local_none.
Qed.

Lemma scan_external_first (reg : AgentRegistry.t)
    (pre post : list string) (cap : string)
    (card : AgentCard.t) (others : list AgentCard.t) :
  (forall c, In c pre -> AgentRegistry.discover_agents reg c = []) ->
  AgentRegistry.discover_agents reg cap = card :: others ->
  AgentRouter.scan_external reg (pre ++ cap :: post)
    = Some (AgentCard.agent_id card).
Proof.
  intros Hpre Hcap. induction pre as [|c pre IH]; simpl.
  - now rewrite Hcap.
  - rewrite (Hpre c) by now left. apply IH. intros c' Hc'. apply Hpre.
    now right.
Qed.

Lemma scan_external_none (reg : AgentRegistry.t) (caps : list string) :
  (forall c, In c caps -> AgentRegistry.discover_agents reg c = []) ->
  AgentRouter.scan_external reg caps = None.
Proof.
  induction caps as [|c caps IH]; simpl; intros H; [reflexivity|].
  rewrite (H c) by now left. apply IH. intros c' Hc'. apply H. now right.
Qed.

(** C3.  For every task with a non-empty list of required capabilities
    for which no local handle advertises them all (so that neither the rule
    table nor the local scan selects), selection asks the directory for
    each required capability in order and returns the id of the first
    record of the first non-empty answer; nothing is asked of that record
    beyond its being discovered for that one capability.  When every
    answer is empty, nothing is selected. *)
Theorem external_fallback_first_discovered
    (r : AgentRouter.t) (task_type : string) (required : list string) :
  required <> [] ->
  (forall id agent, In (id, agent) (PyDict.items (AgentRouter.agents r)) ->
     ~ (forall cap, In cap required -> In cap (advertised agent))) ->
  let reg := A2AClient.registry (AgentRouter.a2a_client r) in
  (forall pre cap post card others,
      required = (pre ++ cap :: post)%list ->
      (forall c, In c pre -> AgentRegistry.discover_agents reg c = []) ->
      AgentRegistry.discover_agents reg cap = card :: others ->
      AgentRouter._select_best_agent r task_type required
        = Some (AgentCard.agent_id card)) /\
  ((forall c, In c required -> AgentRegistry.discover_agents reg c = []) ->
   AgentRouter._select_best_agent r task_type required = None).
Proof.
  intros Hne Hlocal reg.
  destruct (no_local_match_steps r task_type required Hlocal) as [Hr Hl].
  unfold AgentRouter._select_best_agent. rewrite Hr, Hl.
  unfold AgentRouter.external_step. fold reg.
  destruct required as [|c0 required]; [contradiction|].
  split.
  - intros pre cap post card others Heq Hpre Hcap. rewrite Heq.
    now apply scan_external_first with (others := others).
  - apply scan_external_none.
Qed.

Lemma external_fallback_first_discovered_witness :
  let card := Demo.card "analyst" ["data_analysis"] in
  ~ In "web_search" (AgentCard.capabilities card) /\
  AgentRouter._select_best_agent Demo.router_remote_only "research"
    ["web_search"; "data_analysis"] = Some "analyst".
Proof.
  split.
  - simpl. intros [H|[]]. discriminate.
  - apply (proj1 (external_fallback_first_discovered
                    Demo.router_remote_only "research"
                    ["web_search"; "data_analysis"]
                    ltac:(discriminate) ltac:(intros ? ? []))
             ["web_search"] "data_analysis" []
             (Demo.card "analyst" ["data_analysis"]) []).
    + reflexivity.
    + intros c [<-|[]]. reflexivity.
    + reflexivity.
Defined.

(** ** Routing *)

#[local] Arguments String.append : simpl never.

Lemma try_except_returns {S A} (m : Py S A) (h : PyExc -> Py S A)
    (s : S) (w : World) :
  (forall e s' w', exists a, outcome (h e s' w') = inr a) ->
  exists a, outcome (try_except m h s w) = inr a.
Proof.
  intros Hh. unfold try_except.
  destruct (m s w) as [[e|a] s' w']; cbn; eauto.
Qed.

(** [route_task] always returns a text: what the invocation raises is
    turned into a text, and selection raises nothing. *)
Lemma route_task_returns (task : Task.t) (r : AgentRouter.t) (w : World) :
  exists text, outcome (AgentRouter.route_task task r w) = inr text.
Proof.
  unfold AgentRouter.route_task, bind, get_self. cbn.
  destruct (AgentRouter._select_best_agent _ _ _) as [best_agent|].
  - destruct (String.eqb best_agent EmptyString).
    + cbn. eauto.
    + apply try_except_returns. intros e s' w'. cbn. eauto.
  - cbn. eauto.
Qed.

(** C2 (as amended).  For every task for which the rule table, the local
    scan and the directory fallback all find no agent, [route_task]
    returns to its caller, as an ordinary result, the text "No suitable
    agent found for task type: " followed by the task type; nothing is
    raised, and neither the router nor the world has changed. *)
Theorem route_no_agent_returns_text
    (task : Task.t) (r : AgentRouter.t) (w : World) :
  let task_type :=
    match Task.type task with Some ty => ty | None => "general" end in
  let required :=
    match Task.capabilities task with Some l => l | None => [] end in
  AgentRouter.rule_step r task_type required = None ->
  AgentRouter.local_step r required = None ->
  AgentRouter.external_step r required = None ->
  AgentRouter.route_task task r w =
  mkRes (inr ("No suitable agent found for task type: " ++ task_type)) r w.
Proof.
  intros task_type required H1 H2 H3.
  unfold AgentRouter.route_task, bind, get_self. cbn.
  fold task_type required.
  unfold AgentRouter._select_best_agent. now rewrite H1, H2, H3.
Qed.

Lemma route_no_agent_returns_text_witness :
  AgentRouter._select_best_agent Demo.router_remote_only "coding"
    ["debugging"] = None /\
  AgentRouter.route_task (Demo.task "coding" ["debugging"])
    Demo.router_remote_only Demo.world0 =
  mkRes (inr "No suitable agent found for task type: coding")
    Demo.router_remote_only Demo.world0.
Proof.
  split; [reflexivity|].
  apply (route_no_agent_returns_text (Demo.task "coding" ["debugging"])
           Demo.router_remote_only Demo.world0);
    reflexivity.
Defined.

(** C2 (as stated) fails: with no local agent, no rule and an empty
    directory, a task that requires a capability gets no agent from any of
    the three steps, and [route_task] raises nothing: it returns a text. *)
Lemma route_no_agent_does_not_raise :
  let task := Demo.task "research" ["web_search"] in
  let res := AgentRouter.route_task task Demo.router_empty
               Demo.world0 in
  AgentRouter._select_best_agent Demo.router_empty "research"
    ["web_search"] = None /\
  outcome res = inr "No suitable agent found for task type: research" /\
  forall e : PyExc, outcome res <> inl e.
Proof. repeat split. discriminate. Qed.

(** With nothing required, a router that hosts an agent always selects
    one of its local handles. *)
Lemma select_nothing_required_is_local
    (r : AgentRouter.t) (task_type : string) :
  AgentRouter.agents r <> [] ->
  exists agent_id,
    AgentRouter._select_best_agent r task_type [] = Some agent_id /\
    PyDict.contains (AgentRouter.agents r) agent_id = true.
Proof.
  intros Hne. unfold AgentRouter._select_best_agent.
  destruct (AgentRouter.rule_step r task_type []) as [id|] eqn:Er.
  - exists id. split; [reflexivity|].
    unfold AgentRouter.rule_step in Er.
    destruct (PyDict.get _ task_type) as [ids|]; [|discriminate].
    apply scan_rule_sound in Er as [_ [agent [Ha _]]].
    unfold PyDict.contains. now rewrite Ha.
  - unfold AgentRouter.local_step, PyDict.items, PyDict.contains.
    destruct (AgentRouter.agents r) as [|[id agent] rest]; [contradiction|].
    exists id. simpl. now rewrite String.eqb_refl.
Qed.

(** C9 at the input where the code departs from it: the only local agent
    is registered under the empty id and the task requires nothing.
    Selection succeeds and picks that local handle, yet [route_task]
    takes its no-suitable-agent branch, because [not best_agent] holds
    for the empty string as it does for [None]. *)
Theorem route_empty_id_takes_no_agent_branch :
  let task := Demo.task "general" [] in
  AgentRouter._select_best_agent Demo.router_empty_id "general" []
    = Some EmptyString /\
  PyDict.contains (AgentRouter.agents Demo.router_empty_id) EmptyString = true /\
  outcome (AgentRouter.route_task task Demo.router_empty_id
             Demo.world0)
    = inr "No suitable agent found for task type: general".
Proof. repeat split. Qed.

(** ** Delegation *)

(** C4.  For every client, target id and task: when the directory has no
    record under the target id, [delegate_task] raises the not-found
    error naming the target, and the client, the clock and the trace are
    as before (no envelope was stamped, nothing was handed to the
    transport); when the directory resolves the target and the transport
    raises on the envelope, [delegate_task] raises the delegation failure
    whose text names the target id and the cause and which carries the
    cause itself, after exactly that one hand-over. *)
Theorem delegate_task_failures
    (c : A2AClient.t) (target : string) (task : Task.t) (w : World) :
  (AgentRegistry.get_agent (A2AClient.registry c) target = None ->
   A2AClient.delegate_task target task c w =
   mkRes (inl (Exc "ValueError"
                 ("Agent " ++ target ++ " not found in registry") None))
         c w) /\
  (forall (card : AgentCard.t) (cause : PyExc),
      AgentRegistry.get_agent (A2AClient.registry c) target = Some card ->
      let message :=
        mkMessage (A2AClient.agent_id c) (Some target) "task_delegation"
          (TaskPayload task) (clock w)
          (Some (A2AClient.agent_id c, target, S (clock w))) in
      A2AClient.transport c card message (S (S (clock w))) = inl cause ->
      let res := A2AClient.delegate_task target task c w in
      outcome res =
        inl (Exc "Exception"
               ("Failed to delegate task to " ++ target ++ ": "
                ++ str_exc cause) (Some cause)) /\
      self res = c /\
      trace (world res) = (trace w ++ [Transmitted card message])%list).
Proof.
  split.
  - intros Habs. unfold A2AClient.delegate_task, bind, get_self. cbn.
    now rewrite Habs.
  - intros card cause Hget message Hfail.
    unfold A2AClient.delegate_task, bind, get_self. cbn.
    rewrite Hget. cbn. unfold try_except, A2AClient._send_message, bind. cbn.
    fold message. rewrite Hfail. cbn. auto.
Qed.

Lemma delegate_task_failures_witness :
  (exists e,
      outcome (A2AClient.delegate_task "ghost" (Demo.task "research" [])
                 Demo.client1 Demo.world0) = inl e /\
      exc_class e = "ValueError") /\
  (exists e,
      outcome (A2AClient.delegate_task "remote-1"
                 (Demo.task "research" [])
                 Demo.client_refused Demo.world0) = inl e /\
      str_exc e
        = "Failed to delegate task to remote-1: connection refused").
Proof.
  split.
  - eexists. split.
    + rewrite (proj1 (delegate_task_failures Demo.client1 "ghost"
                        (Demo.task "research" []) Demo.world0)
                 eq_refl).
      reflexivity.
    + reflexivity.
  - eexists. split.
    + apply (proj2 (delegate_task_failures Demo.client_refused
                      "remote-1" (Demo.task "research" [])
                      Demo.world0)
               (Demo.card "remote-1" ["web_search"])
               (Exc "ConnectionError" "connection refused" None)
               eq_refl eq_refl).
    + reflexivity.
Defined.

(** ** Broadcast *)

Lemma transmissions_app (tr1 tr2 : list Event) :
  transmissions (tr1 ++ tr2) = (transmissions tr1 ++ transmissions tr2)%list.
Proof. apply flat_map_app. Qed.

(** One turn of the loop of [broadcast_status]: it returns, the client is
    unchanged, and the transport received the envelope once when the
    directory resolves the subscriber and not at all otherwise. *)
Lemma broadcast_turn (c : A2AClient.t) (listener_id : string)
    (message : Message) (w : World) :
  let res :=
    try_except (A2AClient._send_status_update listener_id message)
      (fun e =>
         print ("Failed to send status to " ++ listener_id ++ ": "
                ++ str_exc e)) c w in
  outcome res = inr tt /\
  self res = c /\
  transmissions (trace (world res)) =
    (transmissions (trace w) ++
     match AgentRegistry.get_agent (A2AClient.registry c) listener_id with
     | Some card => [(card, message)]
     | None => []
     end)%list.
Proof.
  unfold try_except, A2AClient._send_status_update, bind, get_self. cbn.
  destruct (AgentRegistry.get_agent _ listener_id) as [card|]; cbn.
  - unfold A2AClient._send_message, bind, get_self. cbn.
    destruct (A2AClient.transport c card message (clock w)) as [e|resp]; cbn;
      rewrite ?transmissions_app; cbn; rewrite ?app_nil_r; auto.
  - now rewrite app_nil_r.
Qed.

Lemma broadcast_loop (c : A2AClient.t) (message : Message)
    (ids : list string) (w : World) :
  let res :=
    for_each ids
      (fun listener_id =>
         try_except (A2AClient._send_status_update listener_id message)
           (fun e =>
              print ("Failed to send status to " ++ listener_id ++ ": "
                     ++ str_exc e))) c w in
  outcome res = inr tt /\
  self res = c /\
  transmissions (trace (world res)) =
    (transmissions (trace w) ++
     flat_map (fun listener_id =>
                 match AgentRegistry.get_agent (A2AClient.registry c)
                         listener_id with
                 | Some card => [(card, message)]
                 | None => []
                 end) ids)%list.
Proof.
  revert w. induction ids as [|id ids IH]; intros w.
  - cbn. now rewrite app_nil_r.
  - cbn [for_each flat_map]. unfold bind.
    destruct (broadcast_turn c id message w) as [Ho [Hs Ht]].
    cbv zeta in Ho, Hs, Ht. rewrite Ho, Hs.
    destruct (IH (world (try_except
                (A2AClient._send_status_update id message)
                (fun e => print ("Failed to send status to " ++ id ++ ": "
                                 ++ str_exc e)) c w))) as [Ho' [Hs' Ht']].
    cbv zeta in Ho', Hs', Ht'. rewrite Ho', Hs', Ht', Ht, <- app_assoc.
    auto.
Qed.

Lemma resolved_listeners_ids (c : A2AClient.t) :
  map fst (resolved_listeners c) =
  filter (fun id =>
            match AgentRegistry.get_agent (A2AClient.registry c) id with
            | Some _ => true
            | None => false
            end) (PyDict.keys (A2AClient.status_listeners c)).
Proof.
  unfold resolved_listeners.
  induction (PyDict.keys (A2AClient.status_listeners c)) as [|id ids IH];
    simpl; [reflexivity|].
  destruct (AgentRegistry.get_agent _ id); simpl; now rewrite IH.
Qed.

Lemma resolved_listeners_envelopes (c : A2AClient.t) (message : Message) :
  map (fun ic => (snd ic, message)) (resolved_listeners c) =
  flat_map (fun listener_id =>
              match AgentRegistry.get_agent (A2AClient.registry c)
                      listener_id with
              | Some card => [(card, message)]
              | None => []
              end) (PyDict.keys (A2AClient.status_listeners c)).
Proof.
  unfold resolved_listeners.
  induction (PyDict.keys (A2AClient.status_listeners c)) as [|id ids IH];
    simpl; [reflexivity|].
  destruct (AgentRegistry.get_agent _ id); simpl; now rewrite IH.
Qed.

(** Subscribing and unsubscribing keep the subscriber table a
    dictionary. *)
Lemma subscribe_unsubscribe_wf (c : A2AClient.t) (id : string) (w : World) :
  PyDict.wf (A2AClient.status_listeners c) ->
  PyDict.wf (A2AClient.status_listeners
               (self (A2AClient.subscribe_to_status id c w))) /\
  PyDict.wf (A2AClient.status_listeners
               (self (A2AClient.unsubscribe_from_status id c w))).
Proof.
  intros Hwf. split.
  - cbn. now apply wf_set.
  - unfold A2AClient.unsubscribe_from_status, bind, get_self. cbn.
    destruct (PyDict.contains _ id); cbn; [now apply wf_del | assumption].
Qed.

(** The world after one turn of the loop of [broadcast_status]. *)
Lemma broadcast_turn_world (c : A2AClient.t) (listener_id : string)
    (message : Message) (w : World) :
  world
    (try_except (A2AClient._send_status_update listener_id message)
       (fun e =>
          print ("Failed to send status to " ++ listener_id ++ ": "
                 ++ str_exc e)) c w)
  = match AgentRegistry.get_agent (A2AClient.registry c) listener_id with
    | None => w
    | Some card =>
        mkWorld (S (clock w))
          (trace w ++
           Transmitted card message
           :: match A2AClient.transport c card message (clock w) with
              | inl e =>
                  [Printed ("Failed to send status to " ++ listener_id
                            ++ ": " ++ str_exc e)]
              | inr _ => []
              end)%list
    end.
Proof.
  unfold try_except, A2AClient._send_status_update, bind, get_self. cbn.
  destruct (AgentRegistry.get_agent _ listener_id) as [card|]; cbn;
    [|reflexivity].
  unfold A2AClient._send_message, bind, get_self. cbn.
  destruct (A2AClient.transport c card message (clock w)) as [e|resp]; cbn;
    [now rewrite <- app_assoc | reflexivity].
Qed.

(** The world after the loop of [broadcast_status]: the clock has been
    read once for every resolved subscriber, and the trace has grown by
    the events of the broadcast and by nothing else. *)
Lemma broadcast_loop_world (c : A2AClient.t) (message : Message)
    (ids : list string) (w : World) :
  world
    (for_each ids
       (fun listener_id =>
          try_except (A2AClient._send_status_update listener_id message)
            (fun e =>
               print ("Failed to send status to " ++ listener_id ++ ": "
                      ++ str_exc e))) c w)
  = mkWorld
      (clock w +
       length (flat_map
                 (fun listener_id =>
                    match AgentRegistry.get_agent (A2AClient.registry c)
                            listener_id with
                    | Some card => [(listener_id, card)]
                    | None => []
                    end) ids))
      (trace w ++ broadcast_events c message ids (clock w))%list.
Proof.
  revert w. induction ids as [|id ids IH]; intros w.
  - destruct w as [n tr]. cbn. now rewrite Nat.add_0_r, app_nil_r.
  - cbn [for_each flat_map broadcast_events]. unfold bind.
    destruct (broadcast_turn c id message w) as [Ho [Hs _]].
    cbv zeta in Ho, Hs. rewrite Ho, Hs, IH, broadcast_turn_world.
    destruct (AgentRegistry.get_agent _ id) as [card|];
      cbn [clock trace app length]; [|reflexivity].
    f_equal; [lia|]. now rewrite <- app_assoc.
Qed.

(** C5 (as amended).  For every client and status payload,
    [broadcast_status] returns without raising and leaves the client
    unchanged, whatever the transport does with each envelope.  During
    the call the transport receives the status envelope exactly once for
    every subscriber that the directory resolves, in the order of the
    subscriber table, a failure being printed and the loop going on; for a
    subscriber that the directory does not know nothing is handed over and
    nothing is printed.  The trace of the call holds these events and no
    other, and the clock is read once for the envelope and once for each
    hand-over. *)
Theorem broadcast_status_resilient
    (c : A2AClient.t) (status : PyDict.t string) (w : World) :
  PyDict.wf (A2AClient.status_listeners c) ->
  let message :=
    mkMessage (A2AClient.agent_id c) None "status_update"
      (StatusPayload status) (clock w) None in
  let res := A2AClient.broadcast_status status c w in
  outcome res = inr tt /\
  self res = c /\
  world res =
    mkWorld (S (clock w) + length (resolved_listeners c))
      (trace w ++
       broadcast_events c message
         (PyDict.keys (A2AClient.status_listeners c)) (S (clock w)))%list /\
  transmissions (trace (world res)) =
    (transmissions (trace w) ++
     map (fun ic => (snd ic, message)) (resolved_listeners c))%list /\
  NoDup (map fst (resolved_listeners c)) /\
  (forall id,
      In id (map fst (resolved_listeners c)) <->
      In id (PyDict.keys (A2AClient.status_listeners c)) /\
      AgentRegistry.get_agent (A2AClient.registry c) id <> None).
Proof.
  intros Hwf message res.
  assert (Hloop := broadcast_loop c message
                     (PyDict.keys (A2AClient.status_listeners c))
                     (mkWorld (S (clock w)) (trace w))).
  assert (Hworld := broadcast_loop_world c message
                      (PyDict.keys (A2AClient.status_listeners c))
                      (mkWorld (S (clock w)) (trace w))).
  cbv zeta in Hloop. destruct Hloop as [Ho [Hs Ht]].
  subst res. unfold A2AClient.broadcast_status, bind, get_self, datetime_now.
  cbn [outcome self world]. fold message.
  rewrite Ho, Hs, Ht, resolved_listeners_envelopes, resolved_listeners_ids.
  split; [reflexivity|]. split; [reflexivity|].
  split; [exact Hworld|]. split; [reflexivity|].
  repeat split.
  - now apply NoDup_filter.
  - apply filter_In in H. tauto.
  - apply filter_In in H as [_ H].
    destruct (AgentRegistry.get_agent _ id); congruence.
  - intros [Hin Hres]. apply filter_In. split; [assumption|].
    destruct (AgentRegistry.get_agent _ id); congruence.
Qed.

Lemma broadcast_status_resilient_witness :
  let message :=
    mkMessage "system" None "status_update"
      (StatusPayload Demo.status_idle) 0 None in
  let res := A2AClient.broadcast_status Demo.status_idle
               Demo.client_refused Demo.world0 in
  PyDict.wf (A2AClient.status_listeners Demo.client_refused) /\
  outcome res = inr tt /\
  world res =
    mkWorld 3
      [Transmitted (Demo.card "remote-1" ["web_search"]) message;
       Printed "Failed to send status to remote-1: connection refused";
       Transmitted (Demo.card "remote-2" ["debugging"]) message;
       Printed "Failed to send status to remote-2: connection refused"] /\
  transmissions (trace (world res)) =
    [(Demo.card "remote-1" ["web_search"], message);
     (Demo.card "remote-2" ["debugging"], message)].
Proof.
  assert (Hwf : PyDict.wf (A2AClient.status_listeners Demo.client_refused)).
  { repeat constructor; simpl; intuition discriminate. }
  destruct (broadcast_status_resilient Demo.client_refused
              Demo.status_idle Demo.world0 Hwf)
    as [Ho [_ [Hw [Ht _]]]].
  split; [exact Hwf|]. split; [exact Ho|]. split; [exact Hw|]. exact Ht.
Defined.

(** C5 (as stated) fails: a client with the subscribers ghost and
    remote-1, of which the directory knows only remote-1, hands a single
    envelope to the transport during a broadcast, the one for remote-1;
    no delivery is attempted for the subscriber ghost. *)
Lemma broadcast_skips_unresolved_subscriber :
  let res := A2AClient.broadcast_status Demo.status_idle
               Demo.client_ghost Demo.world0 in
  PyDict.keys (A2AClient.status_listeners Demo.client_ghost)
    = ["ghost"; "remote-1"] /\
  outcome res = inr tt /\
  trace (world res) =
    [Transmitted (Demo.card "remote-1" ["web_search"])
       (mkMessage "system" None "status_update"
          (StatusPayload Demo.status_idle) 0 None)] /\
  length (transmissions (trace (world res))) = 1.
Proof. repeat split. Qed.

(** ** The conversation log *)

Lemma bind_run {S A B} (m : Py S A) (f : A -> Py S B) (s : S) (w : World)
    (a : A) :
  outcome (m s w) = inr a ->
  bind m f s w = f a (self (m s w)) (world (m s w)).
Proof. intros H. unfold bind. now rewrite H. Qed.

(** [_log_message] appends one entry, stamped with the clock reading,
    to the log of the user. *)
Lemma log_message_spec (cm : ConversationManager.t)
    (user_id role content : string) (w : World) :
  let res := ConversationManager._log_message user_id role content cm w in
  outcome res = inr tt /\
  ConversationManager.history_of (self res) user_id =
    (ConversationManager.history_of cm user_id
     ++ [mkEntry role content (clock w)])%list /\
  ConversationManager.router (self res) = ConversationManager.router cm /\
  PyDict.contains (ConversationManager.conversation_state (self res)) user_id
  = PyDict.contains (ConversationManager.conversation_state cm) user_id.
Proof.
  unfold ConversationManager._log_message, bind, get_self, modify,
    datetime_now, ConversationManager.history_of, PyDict.contains.
  cbn.
  destruct (PyDict.get (ConversationManager.conversation_history cm) user_id)
    as [h|] eqn:Eh; cbn;
  destruct (PyDict.get (ConversationManager.conversation_state cm) user_id)
    as [st|] eqn:Es; cbn;
  rewrite ?get_set_eq, ?Eh, ?Es; cbn; auto.
Qed.

(** The session is opened when the user has none; afterwards the user
    has a session, and the log is the previous one for a known user and
    empty for a new one. *)
Lemma open_session_spec (cm : ConversationManager.t) (user_id : string)
    (w : World) :
  let known :=
    PyDict.contains (ConversationManager.conversation_state cm) user_id in
  let res :=
    (if known then ret tt
     else ConversationManager._initialize_conversation user_id) cm w in
  outcome res = inr tt /\
  ConversationManager.history_of (self res) user_id =
    (if known then ConversationManager.history_of cm user_id else []) /\
  ConversationManager.router (self res) = ConversationManager.router cm /\
  PyDict.contains (ConversationManager.conversation_state (self res)) user_id
  = true.
Proof.
  cbv zeta.
  destruct (PyDict.contains (ConversationManager.conversation_state cm)
              user_id) eqn:Ek.
  - cbn. auto.
  - unfold ConversationManager._initialize_conversation, bind, modify,
      datetime_now, print, emit, ConversationManager.history_of,
      PyDict.contains.
    cbn. rewrite !get_set_eq. auto.
Qed.

Lemma analyze_spec (cm : ConversationManager.t) (user_id message : string)
    (w : World) :
  let res := ConversationManager._analyze_user_message user_id message cm w in
  exists task,
    outcome res = inr task /\
    self res = cm /\
    Task.conversation_history task =
      slice_from (ConversationManager.history_of cm user_id) (-5).
Proof.
  unfold ConversationManager._analyze_user_message.
  destruct (ConversationManager.classify message) as [ty caps].
  cbn. eexists. repeat split.
Qed.

(** One call of [process_user_input]: it returns the text of the router,
    and the log of the user has grown by the user entry, which was
    already part of the log when the task was handed to the router, and
    then by the assistant entry that holds the returned text. *)
Lemma process_user_input_spec (cm : ConversationManager.t)
    (user_id message : string) (w : World) :
  let known :=
    PyDict.contains (ConversationManager.conversation_state cm) user_id in
  let before :=
    if known then ConversationManager.history_of cm user_id else [] in
  let res := ConversationManager.process_user_input user_id message cm w in
  exists response t1 t2 task rw,
    outcome res = inr response /\
    ConversationManager.history_of (self res) user_id =
      (before ++ [mkEntry "user" message t1;
                  mkEntry "assistant" response t2])%list /\
    PyDict.contains (ConversationManager.conversation_state (self res))
      user_id = true /\
    Task.conversation_history task =
      slice_from (before ++ [mkEntry "user" message t1])%list (-5) /\
    outcome (AgentRouter.route_task task (ConversationManager.router cm) rw)
      = inr response.
Proof.
  cbv zeta. unfold ConversationManager.process_user_input.
  rewrite (bind_run get_self _ cm w cm eq_refl). cbn [get_self self world].
  destruct (open_session_spec cm user_id w) as [Ho0 [Hh0 [Hr0 Hk0]]].
  cbv zeta in Ho0, Hh0, Hr0, Hk0.
  rewrite (bind_run _ _ cm w tt Ho0).
  set (r0 := (if PyDict.contains _ user_id then ret tt else _) cm w) in *.
  destruct (log_message_spec (self r0) user_id "user" message (world r0))
    as [Ho1 [Hh1 [Hr1 Hk1]]].
  cbv zeta in Ho1, Hh1, Hr1, Hk1.
  rewrite (bind_run _ _ _ _ tt Ho1).
  set (r1 := ConversationManager._log_message user_id "user" message _ _)
    in *.
  destruct (analyze_spec (self r1) user_id message (world r1))
    as [task [Ho2 [Hs2 Hc2]]].
  cbv zeta in Ho2, Hs2, Hc2.
  rewrite (bind_run _ _ _ _ task Ho2).
  set (r2 := ConversationManager._analyze_user_message user_id message _ _)
    in *.
  destruct (route_task_returns task (ConversationManager.router (self r2))
              (world r2)) as [response Ho3].
  assert (Ho3' : outcome (zoom ConversationManager.router
                            ConversationManager.set_router
                            (AgentRouter.route_task task)
                            (self r2) (world r2)) = inr response)
    by exact Ho3.
  rewrite (bind_run _ _ _ _ response Ho3').
  set (r3 := zoom _ _ _ (self r2) (world r2)) in *.
  destruct (log_message_spec (self r3) user_id "assistant" response
              (world r3)) as [Ho4 [Hh4 [Hr4 Hk4]]].
  cbv zeta in Ho4, Hh4, Hr4, Hk4.
  rewrite (bind_run _ _ _ _ tt Ho4).
  set (r4 := ConversationManager._log_message user_id "assistant" response
               _ _) in *.
  cbn [ret outcome self world].
  assert (Hh3 : ConversationManager.history_of (self r3) user_id
                = ConversationManager.history_of (self r1) user_id).
  { subst r3. cbn. now rewrite Hs2. }
  assert (Hk3 : PyDict.contains
                  (ConversationManager.conversation_state (self r3)) user_id
                = true).
  { subst r3. cbn. rewrite Hs2, Hk1. exact Hk0. }
  exists response, (clock (world r0)), (clock (world r3)), task, (world r2).
  split; [reflexivity|]. split; [|split; [|split]].
  - rewrite Hh4, Hh3, Hh1, Hh0, <- app_assoc. reflexivity.
  - now rewrite Hk4.
  - now rewrite Hc2, Hh1, Hh0.
  - rewrite <- Hr0, <- Hr1, <- Hs2. exact Ho3.
Qed.

(** C7.  For every user without a session yet and all messages m1 and
    m2, two calls of [process_user_input] in a row return texts r1 and
    r2, and the log of the user then reads user:m1, assistant:r1,
    user:m2, assistant:r2.  In each call the user entry is in the log
    before routing (the task handed to the router already ends with it)
    and the assistant entry, which holds the text the router returned, is
    added after. *)
Theorem history_after_two_calls
    (cm : ConversationManager.t) (u m1 m2 : string) (w : World) :
  PyDict.contains (ConversationManager.conversation_state cm) u = false ->
  let res1 := ConversationManager.process_user_input u m1 cm w in
  let res2 :=
    ConversationManager.process_user_input u m2 (self res1) (world res1) in
  exists r1 r2 task1 task2 w1 w2,
    outcome res1 = inr r1 /\
    outcome res2 = inr r2 /\
    map said (ConversationManager.get_conversation_history (self res2) u None)
      = [("user", m1); ("assistant", r1); ("user", m2); ("assistant", r2)] /\
    map said (Task.conversation_history task1) = [("user", m1)] /\
    outcome (AgentRouter.route_task task1 (ConversationManager.router cm) w1)
      = inr r1 /\
    map said (Task.conversation_history task2)
      = [("user", m1); ("assistant", r1); ("user", m2)] /\
    outcome (AgentRouter.route_task task2
               (ConversationManager.router (self res1)) w2)
      = inr r2.
Proof.
  intros Hnew res1 res2.
  destruct (process_user_input_spec cm u m1 w)
    as [r1 [t1 [t2 [task1 [w1 [Ho1 [Hh1 [Hk1 [Hc1 Hr1]]]]]]]]].
  cbv zeta in Ho1, Hh1, Hk1, Hc1, Hr1. rewrite Hnew in Hh1, Hc1.
  fold res1 in Ho1, Hh1, Hk1.
  destruct (process_user_input_spec (self res1) u m2 (world res1))
    as [r2 [t3 [t4 [task2 [w2 [Ho2 [Hh2 [Hk2 [Hc2 Hr2]]]]]]]]].
  cbv zeta in Ho2, Hh2, Hk2, Hc2, Hr2. rewrite Hk1, Hh1 in Hh2, Hc2.
  fold res2 in Ho2, Hh2, Hk2.
  exists r1, r2, task1, task2, w1, w2.
  unfold ConversationManager.get_conversation_history.
  rewrite Hh2, Hc1, Hc2. repeat split; assumption.
Qed.

Lemma history_after_two_calls_witness :
  let res1 := ConversationManager.process_user_input "alice"
                "search for cats" Demo.manager0 Demo.world0 in
  let res2 := ConversationManager.process_user_input "alice"
                "plan a project" (self res1) (world res1) in
  exists r1 r2,
    outcome res1 = inr r1 /\
    outcome res2 = inr r2 /\
    map said (ConversationManager.get_conversation_history (self res2)
                "alice" None)
      = [("user", "search for cats"); ("assistant", r1);
         ("user", "plan a project"); ("assistant", r2)].
Proof.
  destruct (history_after_two_calls Demo.manager0 "alice"
              "search for cats" "plan a project" Demo.world0 eq_refl)
    as [r1 [r2 [_ [_ [_ [_ [Ho1 [Ho2 [Hh _]]]]]]]]].
  exists r1, r2. split; [exact Ho1|]. split; [exact Ho2|]. exact Hh.
Defined.

(* ===================================================================== *)
(** * Further properties of the directory *)
(* ===================================================================== *)

Lemma del_set_absent {V} (d : PyDict.t V) (k : string) (v : V) :
  PyDict.get d k = None -> PyDict.del (PyDict.set d k v) k = d.
Proof.
  unfold PyDict.del.
  induction d as [|[k' v'] d IH]; simpl.
  - now rewrite String.eqb_refl.
  - destruct (String.eqb_spec k' k) as [->|Hne]; [discriminate|].
    intros H. simpl. apply String.eqb_neq in Hne. rewrite Hne. simpl.
    now rewrite (IH H).
Qed.

Lemma set_set_same {V} (d : PyDict.t V) (k : string) (v v' : V) :
  PyDict.set (PyDict.set d k v) k v' = PyDict.set d k v'.
Proof.
  induction d as [|[k0 v0] d IH]; simpl.
  - now rewrite String.eqb_refl.
  - destruct (String.eqb_spec k0 k) as [->|Hne]; simpl.
    + now rewrite String.eqb_refl.
    + apply String.eqb_neq in Hne. now rewrite Hne, IH.
Qed.

(** X1.  Registering a record and unregistering an id leave the lookup of
    every other id as it was. *)
Theorem registry_other_ids_untouched
    (r : AgentRegistry.t) (R : AgentCard.t) (id other : string) (w : World) :
  other <> AgentCard.agent_id R ->
  other <> id ->
  AgentRegistry.get_agent (self (AgentRegistry.register_agent R r w)) other
    = AgentRegistry.get_agent r other /\
  AgentRegistry.get_agent (self (AgentRegistry.unregister_agent id r w)) other
    = AgentRegistry.get_agent r other.
Proof.
  intros HR Hid. destruct r as [d]. split.
  - cbn. apply get_set_ne. congruence.
  - unfold AgentRegistry.unregister_agent, bind, get_self. cbn.
    destruct (PyDict.contains d id); cbn; [|reflexivity].
    apply get_del_ne. congruence.
Qed.

Lemma registry_other_ids_untouched_witness :
  AgentRegistry.get_agent
    (self (AgentRegistry.register_agent (Demo.card "remote-3" ["planning"])
             Demo.registry2 Demo.world0)) "remote-1"
  = Some (Demo.card "remote-1" ["web_search"]) /\
  AgentRegistry.get_agent
    (self (AgentRegistry.unregister_agent "remote-2" Demo.registry2
             Demo.world0)) "remote-1"
  = Some (Demo.card "remote-1" ["web_search"]).
Proof.
  destruct (registry_other_ids_untouched Demo.registry2
              (Demo.card "remote-3" ["planning"]) "remote-2" "remote-1"
              Demo.world0 ltac:(discriminate) ltac:(discriminate))
    as [H1 H2].
  split; [rewrite H1 | rewrite H2]; reflexivity.
Defined.

(** X2.  Registering the same record twice in a row gives the directory
    that registering it once gives; and unregistering a record right after
    registering it under an id the directory did not know gives back the
    directory as it was, with its order. *)
Theorem registry_register_twice_and_undo
    (r : AgentRegistry.t) (R : AgentCard.t) (w w' : World) :
  let r1 := self (AgentRegistry.register_agent R r w) in
  self (AgentRegistry.register_agent R r1 w') = r1 /\
  (AgentRegistry.get_agent r (AgentCard.agent_id R) = None ->
   self (AgentRegistry.unregister_agent (AgentCard.agent_id R) r1 w') = r).
Proof.
  destruct r as [d]. cbn -[PyDict.del PyDict.set]. split.
  - now rewrite set_set_same.
  - intros Habs.
    unfold AgentRegistry.unregister_agent, bind, get_self, PyDict.contains.
    cbn -[PyDict.del PyDict.set]. rewrite get_set_eq.
    cbn -[PyDict.del PyDict.set]. now rewrite del_set_absent.
Qed.

Lemma registry_register_twice_and_undo_witness :
  let R := Demo.card "remote-3" ["planning"] in
  self (AgentRegistry.unregister_agent "remote-3"
          (self (AgentRegistry.register_agent R Demo.registry2 Demo.world0))
          Demo.world0)
  = Demo.registry2.
Proof.
  exact (proj2 (registry_register_twice_and_undo Demo.registry2
                  (Demo.card "remote-3" ["planning"]) Demo.world0
                  Demo.world0) eq_refl).
Defined.

(** The items of a dictionary after an assignment. *)
Lemma In_set_iff {V} (d : PyDict.t V) (k k' : string) (v v' : V) :
  PyDict.wf d ->
  In (k', v') (PyDict.set d k v) <->
  (k' = k /\ v' = v) \/ (k' <> k /\ In (k', v') d).
Proof.
  unfold PyDict.wf, PyDict.keys.
  induction d as [|[k0 v0] d IH]; simpl; intros Hwf.
  - split.
    + intros [H|[]]. injection H as <- <-. auto.
    + intros [[-> ->]|[_ []]]. now left.
  - inversion Hwf as [|? ? Hnin Hnd]; subst.
    destruct (String.eqb_spec k0 k) as [->|Hne]; simpl.
    + split.
      * intros [H|H]; [injection H as <- <-; auto|].
        right. split; [|now right]. intros ->. apply Hnin.
        apply in_map_iff. now exists (k, v').
      * intros [[-> ->]|[Hk [H|H]]]; [now left| |now right].
        injection H as <- <-. contradiction.
    + rewrite (IH Hnd). split.
      * intros [H|[[-> ->]|[Hk H]]]; auto.
        injection H as <- <-. right. split; [assumption | now left].
      * intros [[-> ->]|[Hk [H|H]]]; auto.
Qed.

(** What a directory built by registrations holds: one record per id,
    stored under its own id, the last one registered. *)
Lemma registry_after_items (cards : list AgentCard.t) :
  PyDict.wf (AgentRegistry.agents (registry_after cards)) /\
  forall k card,
    In (k, card) (AgentRegistry.agents (registry_after cards)) <->
    k = AgentCard.agent_id card /\ latest cards card.
Proof.
  induction cards as [|c cards IH] using rev_ind.
  - split; [constructor|]. intros k card. split; [intros []|].
    intros [_ [pre [post [H _]]]]. now destruct pre.
  - destruct IH as [Hwf IH].
    unfold registry_after in *. rewrite fold_left_app. cbn.
    set (d := AgentRegistry.agents
                (fold_left _ cards AgentRegistry.init)) in *.
    split; [now apply wf_set|].
    intros k card. rewrite (In_set_iff d _ _ _ _ Hwf). split.
    + intros [[-> ->]|[Hk Hin]].
      * split; [reflexivity|]. exists cards, []. split; [reflexivity|].
        intros x [].
      * apply IH in Hin as [-> [pre [post [-> Hpost]]]].
        split; [reflexivity|]. exists pre, (post ++ [c])%list.
        split; [now rewrite <- app_assoc|].
        intros x Hx. apply in_app_or in Hx as [Hx|[<-|[]]]; auto.
    + intros [-> [pre [post [Heq Hpost]]]].
      destruct post as [|p post _] using rev_ind.
      * apply app_inj_tail in Heq as [_ <-]. now left.
      * rewrite app_comm_cons, app_assoc in Heq.
        apply app_inj_tail in Heq as [-> <-].
        assert (Hc : AgentCard.agent_id c <> AgentCard.agent_id card)
          by (apply Hpost, in_or_app; right; now left).
        right. split; [congruence|]. apply IH. split; [reflexivity|].
        exists pre, post. split; [reflexivity|].
        intros x Hx. apply Hpost, in_or_app. now left.
Qed.

(** X3.  For every sequence of registrations starting from an empty
    directory and every capability, [discover_agents] returns exactly the
    records that advertise the capability and are the last registration
    of their id. *)
Theorem discover_after_registrations
    (cards : list AgentCard.t) (capability : string) (card : AgentCard.t) :
  In card (AgentRegistry.discover_agents (registry_after cards) capability)
  <-> In capability (AgentCard.capabilities card) /\ latest cards card.
Proof.
  unfold AgentRegistry.discover_agents, PyDict.values.
  rewrite filter_In, str_in_iff, in_map_iff.
  destruct (registry_after_items cards) as [_ Hitems]. split.
  - intros [[[k c] [Hc Hin]] Hcap]. simpl in Hc. subst c.
    apply Hitems in Hin as [_ Hl]. auto.
  - intros [Hcap Hl]. split; [|assumption].
    exists (AgentCard.agent_id card, card). split; [reflexivity|].
    apply Hitems. auto.
Qed.




(* ===================================================================== *)
(** * Further properties of the delegation client *)
(* ===================================================================== *)

Lemma handle_enqueued (c : A2AClient.t) (message : Message) (w : World) :
  enqueued message ->
  let res := A2AClient.handle_incoming_message message c w in
  (exists ack, outcome res = inr ack) /\
  self res =
    A2AClient.set_message_queue
      (A2AClient.message_queue c ++ [message])%list c.
Proof.
  unfold A2AClient.handle_incoming_message.
  intros [Ht|[Ht [text Hp]]]; rewrite Ht; cbn.
  - eauto.
  - unfold A2AClient._handle_direct_message. rewrite Hp. cbn. eauto.
Qed.

Lemma handle_all_enqueued (messages : list Message) (c : A2AClient.t)
    (w : World) :
  Forall enqueued messages ->
  let res := handle_all messages c w in
  outcome res = inr tt /\
  self res =
    A2AClient.set_message_queue
      (A2AClient.message_queue c ++ messages)%list c.
Proof.
  revert c w. induction messages as [|m ms IH]; intros c w Hall.
  - cbn. rewrite app_nil_r. now destruct c.
  - inversion Hall as [|? ? Hm Hms]; subst.
    destruct (handle_enqueued c m w Hm) as [[ack Ho] Hs].
    cbv zeta in Ho, Hs.
    assert (Hstep :
      (A2AClient.handle_incoming_message m ;; ret tt) c w =
      mkRes (inr tt)
        (A2AClient.set_message_queue
           (A2AClient.message_queue c ++ [m])%list c)
        (world (A2AClient.handle_incoming_message m c w))).
    { rewrite (bind_run _ _ _ _ ack Ho). unfold ret. now rewrite Hs. }
    change (handle_all (m :: ms) c w)
      with (bind (A2AClient.handle_incoming_message m ;; ret tt)
              (fun _ => handle_all ms) c w).
    rewrite (bind_run _ _ _ _ tt) by now rewrite Hstep.
    rewrite Hstep. cbn [self world].
    destruct (IH (A2AClient.set_message_queue
                    (A2AClient.message_queue c ++ [m])%list c)
                 (world (A2AClient.handle_incoming_message m c w)) Hms)
      as [Ho' Hs'].
    cbv zeta in Ho', Hs'. rewrite Ho', Hs'. cbn. now rewrite <- app_assoc.
Qed.

Lemma receive_many_drains (c : A2AClient.t) (w : World) :
  let res := receive_many (S (length (A2AClient.message_queue c))) c w in
  outcome res = inr (map Some (A2AClient.message_queue c) ++ [None])%list /\
  self res = A2AClient.set_message_queue [] c /\
  world res = w.
Proof.
  destruct c as [id reg listeners q tr]. cbn [A2AClient.message_queue].
  revert w. induction q as [|m q IH]; intros w.
  - cbn. auto.
  - destruct (IH w) as [Ho [Hs Hw]]. cbv zeta in Ho, Hs, Hw.
    set (c := A2AClient.mk id reg listeners (m :: q) tr).
    set (c' := A2AClient.mk id reg listeners q tr) in *.
    change (receive_many (S (length (m :: q))) c w)
      with (bind A2AClient.receive_messages
              (fun message =>
                 bind (receive_many (S (length q)))
                   (fun rest => ret (message :: rest))) c w).
    rewrite (bind_run A2AClient.receive_messages _ c w (Some m) eq_refl).
    change (self (A2AClient.receive_messages c w)) with c'.
    change (world (A2AClient.receive_messages c w)) with w.
    rewrite (bind_run (receive_many (S (length q))) _ c' w _ Ho). unfold ret. cbn [outcome self world].
    rewrite Hs, Hw. auto.
Qed.

(** X5.  The inbox is first in, first out: after handling, in order, any
    messages that are task delegations or direct messages with a content,
    successive calls of [receive_messages] return what was already in the
    inbox and then those messages, in the order of arrival, and then
    report an empty inbox; nothing is raised. *)
Theorem inbox_first_in_first_out
    (c : A2AClient.t) (messages : list Message) (w : World) :
  Forall enqueued messages ->
  let inbox := (A2AClient.message_queue c ++ messages)%list in
  let res := (handle_all messages ;; receive_many (S (length inbox))) c w in
  outcome res = inr (map Some inbox ++ [None])%list /\
  A2AClient.message_queue (self res) = [].
Proof.
  intros Hall inbox res.
  destruct (handle_all_enqueued messages c w Hall) as [Ho Hs].
  cbv zeta in Ho, Hs. subst res.
  rewrite (bind_run (handle_all messages) _ c w tt Ho), Hs. fold inbox.
  pose proof (receive_many_drains
                (A2AClient.set_message_queue inbox c)
                (world (handle_all messages c w))) as Hd.
  cbv zeta in Hd.
  change (A2AClient.message_queue (A2AClient.set_message_queue inbox c))
    with inbox in Hd.
  destruct Hd as [Ho' [Hs' _]]. rewrite Ho', Hs'. auto.
Qed.

Lemma inbox_first_in_first_out_witness :
  let m1 := Demo.delegation "planner" in
  let m2 := Demo.direct "researcher" "ping" in
  outcome ((handle_all [m1; m2] ;; receive_many 3) Demo.client1 Demo.world0)
  = inr [Some m1; Some m2; None].
Proof.
  assert (Hall : Forall enqueued
                   [Demo.delegation "planner";
                    Demo.direct "researcher" "ping"]).
  { apply Forall_cons; [now left|]. apply Forall_cons; [|constructor].
    right. split; [reflexivity|]. now exists "ping". }
  exact (proj1 (inbox_first_in_first_out Demo.client1 _ Demo.world0 Hall)).
Defined.

(** X6.  [handle_incoming_message] answers a message of an unknown kind
    with an error acknowledgement that names the kind, raising nothing and
    changing neither the client nor the world; a status update never
    changes the client; and a direct message without a content raises
    [KeyError] before anything is printed or put in the inbox. *)
Theorem incoming_dispatch_edges
    (c : A2AClient.t) (message : Message) (w : World) :
  let res := A2AClient.handle_incoming_message message c w in
  (msg_type message <> "task_delegation" ->
   msg_type message <> "status_update" ->
   msg_type message <> "direct_message" ->
   res = mkRes (inr (AckError ("Unknown message type: " ++ msg_type message)))
           c w) /\
  (msg_type message = "status_update" -> self res = c) /\
  (msg_type message = "direct_message" ->
   (forall text, msg_payload message <> ContentPayload text) ->
   res = mkRes (inl (Exc "KeyError" "'content'" None)) c w).
Proof.
  unfold A2AClient.handle_incoming_message. cbv zeta. split; [|split].
  - intros H1 H2 H3.
    apply String.eqb_neq in H1, H2, H3. now rewrite H1, H2, H3.
  - intros ->. cbn. unfold A2AClient._handle_status_update.
    destruct (msg_payload message); reflexivity.
  - intros -> Hp. cbn. unfold A2AClient._handle_direct_message.
    destruct (msg_payload message) as [t|st|text]; try reflexivity.
    now destruct (Hp text).
Qed.

Lemma incoming_dispatch_edges_witness :
  let gossip :=
    mkMessage "planner" None "gossip" (ContentPayload "psst") 0 None in
  let hollow :=
    mkMessage "planner" None "direct_message"
      (TaskPayload (Demo.task "research" [])) 0 None in
  A2AClient.handle_incoming_message gossip Demo.client1 Demo.world0
  = mkRes (inr (AckError "Unknown message type: gossip"))
      Demo.client1 Demo.world0 /\
  A2AClient.handle_incoming_message hollow Demo.client1 Demo.world0
  = mkRes (inl (Exc "KeyError" "'content'" None)) Demo.client1 Demo.world0.
Proof.
  split.
  - apply (proj1 (incoming_dispatch_edges Demo.client1
                    (mkMessage "planner" None "gossip"
                       (ContentPayload "psst") 0 None) Demo.world0));
      discriminate.
  - apply (proj2 (proj2 (incoming_dispatch_edges Demo.client1
                           (mkMessage "planner" None "direct_message"
                              (TaskPayload (Demo.task "research" [])) 0 None)
                           Demo.world0)));
      [reflexivity | discriminate].
Defined.

Lemma contains_set_eq {V} (d : PyDict.t V) (k : string) (v : V) :
  PyDict.contains (PyDict.set d k v) k = true.
Proof. unfold PyDict.contains. now rewrite get_set_eq. Qed.

Lemma contains_set_ne {V} (d : PyDict.t V) (k k' : string) (v : V) :
  k <> k' ->
  PyDict.contains (PyDict.set d k v) k' = PyDict.contains d k'.
Proof. intros H. unfold PyDict.contains. now rewrite get_set_ne. Qed.

Lemma contains_del_eq {V} (d : PyDict.t V) (k : string) :
  PyDict.contains (PyDict.del d k) k = false.
Proof. unfold PyDict.contains. now rewrite get_del_eq. Qed.

Lemma contains_del_ne {V} (d : PyDict.t V) (k k' : string) :
  k <> k' -> PyDict.contains (PyDict.del d k) k' = PyDict.contains d k'.
Proof. intros H. unfold PyDict.contains. now rewrite get_del_ne. Qed.

Lemma contains_false_not_In {V} (d : PyDict.t V) (k : string) :
  PyDict.contains d k = false <-> ~ In k (PyDict.keys d).
Proof.
  rewrite <- get_None_not_In_keys. unfold PyDict.contains.
  destruct (PyDict.get d k); split; congruence.
Qed.

(** X7.  Subscribing and unsubscribing toggle one id of the subscriber
    table and no other: after [subscribe_to_status id] the id is a
    subscriber, and subscribing again changes nothing; after
    [unsubscribe_from_status id] it is not, a broadcast has no envelope
    for it, and unsubscribing again changes nothing. *)
Theorem subscription_toggle
    (c : A2AClient.t) (id other : string) (w w' : World) :
  other <> id ->
  let c1 := self (A2AClient.subscribe_to_status id c w) in
  let c2 := self (A2AClient.unsubscribe_from_status id c w) in
  PyDict.contains (A2AClient.status_listeners c1) id = true /\
  PyDict.contains (A2AClient.status_listeners c2) id = false /\
  PyDict.contains (A2AClient.status_listeners c1) other
    = PyDict.contains (A2AClient.status_listeners c) other /\
  PyDict.contains (A2AClient.status_listeners c2) other
    = PyDict.contains (A2AClient.status_listeners c) other /\
  self (A2AClient.subscribe_to_status id c1 w') = c1 /\
  A2AClient.unsubscribe_from_status id c2 w' = mkRes (inr tt) c2 w' /\
  ~ In id (map fst (resolved_listeners c2)).
Proof.
  intros Hne c1 c2.
  assert (H2 : PyDict.contains (A2AClient.status_listeners c2) id = false).
  { subst c2. unfold A2AClient.unsubscribe_from_status, bind, get_self.
    cbn -[PyDict.del].
    destruct (PyDict.contains (A2AClient.status_listeners c) id) eqn:E;
      cbn -[PyDict.del]; [apply contains_del_eq | exact E]. }
  split; [|split; [|split; [|split; [|split; [|split]]]]].
  - subst c1. cbn -[PyDict.set]. apply contains_set_eq.
  - exact H2.
  - subst c1. cbn -[PyDict.set]. apply contains_set_ne. congruence.
  - subst c2. unfold A2AClient.unsubscribe_from_status, bind, get_self.
    cbn -[PyDict.del].
    destruct (PyDict.contains (A2AClient.status_listeners c) id);
      cbn -[PyDict.del]; [|reflexivity].
    apply contains_del_ne. congruence.
  - subst c1. cbn -[PyDict.set]. unfold A2AClient.set_status_listeners.
    cbn -[PyDict.set]. now rewrite set_set_same.
  - unfold A2AClient.unsubscribe_from_status at 1, bind, get_self. cbn.
    now rewrite H2.
  - rewrite resolved_listeners_ids. intros Hin.
    apply filter_In in Hin as [Hin _].
    now apply contains_false_not_In in H2.
Qed.

Lemma subscription_toggle_witness :
  PyDict.contains
    (A2AClient.status_listeners
       (self (A2AClient.unsubscribe_from_status "ghost" Demo.client_ghost
                Demo.world0))) "remote-1" = true.
Proof.
  destruct (subscription_toggle Demo.client_ghost "ghost" "remote-1"
              Demo.world0 Demo.world0 ltac:(discriminate))
    as [_ [_ [_ [H _]]]].
  rewrite H. reflexivity.
Defined.

(** X8.  [send_direct_message] behaves as [delegate_task] does: an
    unknown target raises the not-found error with nothing stamped or
    handed over; a resolved target gets one envelope of kind
    [direct_message] holding the text, and the call returns what the
    transport answers or, when the transport raises, raises the send
    failure that names the target and the cause. *)
Theorem send_direct_message_outcomes
    (c : A2AClient.t) (target text : string) (w : World) :
  let res := A2AClient.send_direct_message target text c w in
  (AgentRegistry.get_agent (A2AClient.registry c) target = None ->
   res = mkRes (inl (Exc "ValueError"
                       ("Agent " ++ target ++ " not found in registry") None))
           c w) /\
  (forall card : AgentCard.t,
      AgentRegistry.get_agent (A2AClient.registry c) target = Some card ->
      let message :=
        mkMessage (A2AClient.agent_id c) (Some target) "direct_message"
          (ContentPayload text) (clock w)
          (Some (A2AClient.agent_id c, target, S (clock w))) in
      self res = c /\
      trace (world res) = (trace w ++ [Transmitted card message])%list /\
      outcome res =
        match A2AClient.transport c card message (S (S (clock w))) with
        | inr response => inr response
        | inl cause =>
            inl (Exc "Exception"
                   ("Failed to send message to " ++ target ++ ": "
                    ++ str_exc cause) (Some cause))
        end).
Proof.
  cbv zeta. split.
  - intros Habs. unfold A2AClient.send_direct_message, bind, get_self. cbn.
    now rewrite Habs.
  - intros card Hget.
    unfold A2AClient.send_direct_message, bind, get_self. cbn.
    rewrite Hget. cbn. unfold try_except, A2AClient._send_message, bind. cbn.
    destruct (A2AClient.transport c card _ _); cbn; auto.
Qed.

Lemma send_direct_message_outcomes_witness :
  outcome (A2AClient.send_direct_message "remote-1" "ping"
             Demo.client_refused Demo.world0)
  = inl (Exc "Exception"
           "Failed to send message to remote-1: connection refused"
           (Some (Exc "ConnectionError" "connection refused" None))) /\
  outcome (A2AClient.send_direct_message "ghost" "ping" Demo.client1
             Demo.world0)
  = inl (Exc "ValueError" "Agent ghost not found in registry" None).
Proof.
  split.
  - exact (proj2 (proj2 (proj2 (send_direct_message_outcomes
                                  Demo.client_refused "remote-1" "ping"
                                  Demo.world0)
                           (Demo.card "remote-1" ["web_search"]) eq_refl))).
  - rewrite (proj1 (send_direct_message_outcomes Demo.client1 "ghost" "ping"
                      Demo.world0) eq_refl).
    reflexivity.
Defined.

(** X9.  Over the transport simulated in the repository, [delegate_task]
    returns exactly when the directory knows the target: it then answers
    "delivered", naming the id of the record, after one hand-over; for an
    unknown target it raises the not-found error. *)
Theorem delegate_task_simulated
    (c : A2AClient.t) (target : string) (task : Task.t) (w : World) :
  A2AClient.transport c = A2AClient.simulated_transport ->
  let res := A2AClient.delegate_task target task c w in
  ((exists response, outcome res = inr response) <->
   AgentRegistry.get_agent (A2AClient.registry c) target <> None) /\
  (forall card,
      AgentRegistry.get_agent (A2AClient.registry c) target = Some card ->
      outcome res =
        inr (mkResponse "delivered"
               ("Message delivered to " ++ AgentCard.agent_id card)
               (S (S (clock w)))) /\
      length (transmissions (trace (world res)))
        = S (length (transmissions (trace w)))).
Proof.
  intros Htr. cbv zeta.
  unfold A2AClient.delegate_task, bind, get_self. cbn.
  destruct (AgentRegistry.get_agent _ target) as [card|] eqn:Hget; cbn.
  - unfold try_except, A2AClient._send_message, bind. cbn. rewrite Htr. cbn.
    split.
    + split; [discriminate | eauto].
    + intros card' H. injection H as <-. split; [reflexivity|].
      rewrite transmissions_app, length_app. cbn. lia.
  - split.
    + split; [intros [response H]; discriminate | congruence].
    + discriminate.
Qed.

Lemma delegate_task_simulated_witness :
  outcome (A2AClient.delegate_task "remote-1" (Demo.task "research" [])
             Demo.client1 Demo.world0)
  = inr (mkResponse "delivered" "Message delivered to remote-1" 2).
Proof.
  exact (proj1 (proj2 (delegate_task_simulated Demo.client1 "remote-1"
                         (Demo.task "research" []) Demo.world0 eq_refl)
                  (Demo.card "remote-1" ["web_search"]) eq_refl)).
Defined.

(* ===================================================================== *)
(** * Further properties of the router *)
(* ===================================================================== *)






(** X11.  When the selected id is a local handle (and not the empty
    string), [route_task] returns "Task completed by <id>: <result>" when
    the [process_task] of that agent returns, and "Error executing task
    with agent <id>: <text of the error>" when it raises. *)
Theorem route_task_local_invocation
    (task : Task.t) (r : AgentRouter.t) (w : World)
    (agent_id : string) (agent : AgentRouter.Agent) :
  AgentRouter._select_best_agent r
    match Task.type task with Some ty => ty | None => "general" end
    match Task.capabilities task with Some l => l | None => [] end
    = Some agent_id ->
  agent_id <> EmptyString ->
  PyDict.get (AgentRouter.agents r) agent_id = Some agent ->
  outcome (AgentRouter.route_task task r w) =
  inr match AgentRouter.process_task agent task with
      | inr result => "Task completed by " ++ agent_id ++ ": " ++ result
      | inl e =>
          "Error executing task with agent " ++ agent_id ++ ": "
          ++ str_exc e
      end.
Proof.
  intros Hsel Hne Hget.
  unfold AgentRouter.route_task, bind, get_self. cbn. rewrite Hsel.
  apply String.eqb_neq in Hne. rewrite Hne.
  unfold try_except, AgentRouter._execute_task_with_agent, bind, get_self.
  cbn. rewrite Hget.
  destruct (AgentRouter.process_task agent task); reflexivity.
Qed.

Lemma route_task_local_invocation_witness :
  outcome (AgentRouter.route_task (Demo.task "research" ["web_search"])
             Demo.router1 Demo.world0)
  = inr "Task completed by local-2: done".
Proof.
  exact (route_task_local_invocation (Demo.task "research" ["web_search"])
           Demo.router1 Demo.world0 "local-2"
           (Demo.agent ["web_search"] "done")
           eq_refl ltac:(discriminate) eq_refl).
Defined.

(** X12.  When the selected id is not a local handle, [route_task]
    delegates through its client and still returns a text: "Task
    delegated to <id>: <answer>" when the transport answers; the
    not-found error as a text when the directory has no record under the
    id; and the delegation failure, cause included, as a text when the
    transport raises. *)
Theorem route_task_remote_invocation
    (task : Task.t) (r : AgentRouter.t) (w : World) (agent_id : string) :
  AgentRouter._select_best_agent r
    match Task.type task with Some ty => ty | None => "general" end
    match Task.capabilities task with Some l => l | None => [] end
    = Some agent_id ->
  agent_id <> EmptyString ->
  PyDict.get (AgentRouter.agents r) agent_id = None ->
  let client := AgentRouter.a2a_client r in
  let message :=
    mkMessage (A2AClient.agent_id client) (Some agent_id) "task_delegation"
      (TaskPayload task) (clock w)
      (Some (A2AClient.agent_id client, agent_id, S (clock w))) in
  outcome (AgentRouter.route_task task r w) =
  inr match AgentRegistry.get_agent (A2AClient.registry client) agent_id with
      | None =>
          "Error executing task with agent " ++ agent_id ++ ": "
          ++ "Agent " ++ agent_id ++ " not found in registry"
      | Some card =>
          match A2AClient.transport client card message (S (S (clock w))) with
          | inr response =>
              "Task delegated to " ++ agent_id ++ ": " ++ str_response response
          | inl cause =>
              "Error executing task with agent " ++ agent_id ++ ": "
              ++ "Failed to delegate task to " ++ agent_id ++ ": "
              ++ str_exc cause
          end
      end.
Proof.
  intros Hsel Hne Hget client message.
  unfold AgentRouter.route_task, bind, get_self. cbn. rewrite Hsel.
  apply String.eqb_neq in Hne. rewrite Hne.
  unfold try_except, AgentRouter._execute_task_with_agent, bind, get_self.
  cbn. rewrite Hget. unfold zoom, A2AClient.delegate_task, bind, get_self.
  cbn. fold client.
  destruct (AgentRegistry.get_agent (A2AClient.registry client) agent_id)
    as [card|]; cbn; [|reflexivity].
  unfold try_except, A2AClient._send_message, bind. cbn. fold message.
  destruct (A2AClient.transport client card message _); reflexivity.
Qed.

Lemma route_task_remote_invocation_witness :
  outcome (AgentRouter.route_task
             (Demo.task "analysis" ["data_analysis"])
             Demo.router_remote_only Demo.world0)
  = inr ("Task delegated to analyst: {'status': 'delivered', "
         ++ "'response': 'Message delivered to analyst', 'timestamp': '2'}")
  /\
  outcome (AgentRouter.route_task
             (Demo.task "analysis" ["data_analysis"])
             Demo.router_alias Demo.world0)
  = inr ("Error executing task with agent analyst: "
         ++ "Agent analyst not found in registry").
Proof.
  split.
  - exact (route_task_remote_invocation
             (Demo.task "analysis" ["data_analysis"])
             Demo.router_remote_only Demo.world0 "analyst"
             eq_refl ltac:(discriminate) eq_refl).
  - exact (route_task_remote_invocation
             (Demo.task "analysis" ["data_analysis"])
             Demo.router_alias Demo.world0 "analyst"
             eq_refl ltac:(discriminate) eq_refl).
Defined.

Lemma In_get_wf {V} (d : PyDict.t V) (k : string) (v : V) :
  PyDict.wf d -> In (k, v) d -> PyDict.get d k = Some v.
Proof.
  unfold PyDict.wf, PyDict.keys.
  induction d as [|[k' v'] d IH]; simpl; intros Hwf Hin; [contradiction|].
  inversion Hwf as [|? ? Hnin Hnd]; subst.
  destruct Hin as [H|H].
  - injection H as -> ->. now rewrite String.eqb_refl.
  - destruct (String.eqb_spec k' k) as [->|Hne]; [|auto].
    exfalso. apply Hnin. apply in_map_iff. now exists (k, v).
Qed.

Lemma scan_local_sound (required : list string)
    (items : list (string * AgentRouter.Agent)) (agent_id : string) :
  AgentRouter.scan_local required items = Some agent_id ->
  exists agent,
    In (agent_id, agent) items /\
    AgentRouter._agent_has_capabilities agent required = true.
Proof.
  induction items as [|[id agent] items IH]; simpl; [discriminate|].
  destruct (AgentRouter._agent_has_capabilities agent required) eqn:E.
  - intros H. injection H as <-. exists agent. auto.
  - intros H. destruct (IH H) as [a [Hin Ha]]. exists a. auto.
Qed.

Lemma scan_local_complete (required : list string)
    (items : list (string * AgentRouter.Agent))
    (agent_id : string) (agent : AgentRouter.Agent) :
  In (agent_id, agent) items ->
  AgentRouter._agent_has_capabilities agent required = true ->
  exists found, AgentRouter.scan_local required items = Some found.
Proof.
  induction items as [|[id a] items IH]; simpl; [contradiction|].
  intros Hin Hcap.
  destruct (AgentRouter._agent_has_capabilities a required) eqn:E; [eauto|].
  destruct Hin as [H|H]; [|auto].
  injection H as -> ->. congruence.
Qed.

(** X13.  Local agents come first: when some local handle advertises
    every required capability, selection returns a local handle that
    advertises every required capability, whatever the rule table and the
    directory hold; no remote agent is considered. *)
Theorem selection_prefers_local
    (r : AgentRouter.t) (task_type : string) (required : list string)
    (capable : string) :
  PyDict.wf (AgentRouter.agents r) ->
  local_match r required capable ->
  exists agent_id,
    AgentRouter._select_best_agent r task_type required = Some agent_id /\
    PyDict.contains (AgentRouter.agents r) agent_id = true /\
    local_match r required agent_id.
Proof.
  intros Hwf Hcap. unfold AgentRouter._select_best_agent.
  destruct (AgentRouter.rule_step r task_type required) as [id|] eqn:Er.
  - exists id. split; [reflexivity|].
    unfold AgentRouter.rule_step in Er.
    destruct (PyDict.get _ task_type) as [ids|]; [|discriminate].
    apply scan_rule_sound in Er as [_ Hm]. split; [|assumption].
    destruct Hm as [agent [Ha _]]. unfold PyDict.contains. now rewrite Ha.
  - destruct Hcap as [agent [Hget Hall]].
    apply agent_has_capabilities_iff in Hall.
    destruct (scan_local_complete required
                (PyDict.items (AgentRouter.agents r)) capable agent
                (get_Some_In _ _ _ Hget) Hall) as [found Hfound].
    unfold AgentRouter.local_step. rewrite Hfound.
    exists found. split; [reflexivity|].
    apply scan_local_sound in Hfound as [a [Hin Ha]].
    apply (In_get_wf _ _ _ Hwf) in Hin.
    split.
    + unfold PyDict.contains. unfold PyDict.items in Hin. now rewrite Hin.
    + exists a. split; [exact Hin|]. now apply agent_has_capabilities_iff.
Qed.

Lemma selection_prefers_local_witness :
  exists agent_id,
    AgentRouter._select_best_agent Demo.router1 "coding" ["web_search"]
      = Some agent_id /\
    PyDict.contains (AgentRouter.agents Demo.router1) agent_id = true.
Proof.
  assert (Hwf : PyDict.wf (AgentRouter.agents Demo.router1)).
  { repeat constructor. simpl. tauto. }
  assert (Hm : local_match Demo.router1 ["web_search"] "local-2")
    by (apply local_match_dec; reflexivity).
  destruct (selection_prefers_local Demo.router1 "coding" ["web_search"]
              "local-2" Hwf Hm) as [id [Hs [Hc _]]].
  exists id. split; [exact Hs | exact Hc].
Defined.

(** X14.  A routing rule is consulted before anything else and only for
    its own task type: after [add_routing_rule ty ids], selection for [ty]
    returns the first id of [ids] that is a capable local handle; after
    [remove_routing_rule ty], selection for [ty] is the local scan followed
    by the directory fallback; for every other task type both leave
    selection as it was. *)
Theorem routing_rule_add_remove
    (r : AgentRouter.t) (ty other : string) (ids required : list string)
    (w : World) :
  other <> ty ->
  let r1 := self (AgentRouter.add_routing_rule ty ids r w) in
  let r2 := self (AgentRouter.remove_routing_rule ty r w) in
  (forall pre agent_id post,
      ids = (pre ++ agent_id :: post)%list ->
      local_match r required agent_id ->
      (forall x, In x pre -> ~ local_match r required x) ->
      AgentRouter._select_best_agent r1 ty required = Some agent_id) /\
  AgentRouter._select_best_agent r2 ty required =
    match AgentRouter.local_step r required with
    | Some agent_id => Some agent_id
    | None => AgentRouter.external_step r required
    end /\
  AgentRouter._select_best_agent r1 other required
    = AgentRouter._select_best_agent r other required /\
  AgentRouter._select_best_agent r2 other required
    = AgentRouter._select_best_agent r other required.
Proof.
  intros Hne r1 r2.
  assert (Hr2 : AgentRouter.agents r2 = AgentRouter.agents r /\
                AgentRouter.a2a_client r2 = AgentRouter.a2a_client r /\
                PyDict.get (AgentRouter.routing_rules r2) ty = None /\
                PyDict.get (AgentRouter.routing_rules r2) other
                = PyDict.get (AgentRouter.routing_rules r) other).
  { subst r2. unfold AgentRouter.remove_routing_rule, bind, get_self,
      PyDict.contains. cbn -[PyDict.del].
    destruct (PyDict.get (AgentRouter.routing_rules r) ty) eqn:E;
      cbn -[PyDict.del]; repeat split; auto.
    - apply get_del_eq.
    - apply get_del_ne. congruence. }
  destruct Hr2 as [Ha2 [Hc2 [Hg2 Ho2]]].
  split; [|split; [|split]].
  - intros pre agent_id post -> Hm Hpre.
    unfold AgentRouter._select_best_agent, AgentRouter.rule_step.
    subst r1. cbn -[PyDict.set]. rewrite get_set_eq.
    now rewrite (scan_rule_first r required pre post agent_id Hm Hpre).
  - unfold AgentRouter._select_best_agent, AgentRouter.rule_step,
      AgentRouter.local_step, AgentRouter.external_step.
    now rewrite Hg2, Ha2, Hc2.
  - unfold AgentRouter._select_best_agent, AgentRouter.rule_step.
    subst r1. cbn -[PyDict.set]. rewrite get_set_ne by congruence.
    reflexivity.
  - unfold AgentRouter._select_best_agent, AgentRouter.rule_step,
      AgentRouter.local_step, AgentRouter.external_step.
    now rewrite Ho2, Ha2, Hc2.
Qed.

Lemma routing_rule_add_remove_witness :
  AgentRouter._select_best_agent
    (self (AgentRouter.remove_routing_rule "research" Demo.router1
             Demo.world0)) "research" ["web_search"]
  = Some "local-2" /\
  AgentRouter._select_best_agent
    (self (AgentRouter.add_routing_rule "coding" ["local-2"] Demo.router1
             Demo.world0)) "coding" ["web_search"]
  = Some "local-2".
Proof.
  destruct (routing_rule_add_remove Demo.router1 "research" "coding"
              ["remote-1"] ["web_search"] Demo.world0
              ltac:(discriminate)) as [_ [H _]].
  split; [rewrite H; reflexivity|].
  apply (proj1 (routing_rule_add_remove Demo.router1 "coding" "research"
                  ["local-2"] ["web_search"] Demo.world0
                  ltac:(discriminate)) [] "local-2" []).
  - reflexivity.
  - apply local_match_dec. reflexivity.
  - intros x [].
Defined.

Lemma fold_set_fresh {V W} (f : V -> W) (items : PyDict.t V)
    (acc : PyDict.t W) :
  NoDup (PyDict.keys acc ++ PyDict.keys items) ->
  fold_left (fun listing item => PyDict.set listing (fst item) (f (snd item)))
            items acc
  = (acc ++ map (fun item => (fst item, f (snd item))) items)%list.
Proof.
  revert acc. induction items as [|[k v] items IH]; intros acc Hnd; simpl.
  - now rewrite app_nil_r.
  - assert (Hk : ~ In k (PyDict.keys acc)).
    { intros Hin. apply NoDup_remove_2 in Hnd. apply Hnd.
      apply in_or_app. now left. }
    assert (Hset : PyDict.set acc k (f v) = (acc ++ [(k, f v)])%list).
    { clear -Hk. induction acc as [|[k0 v0] acc IHa]; simpl in *;
        [reflexivity|].
      destruct (String.eqb_spec k0 k) as [->|Hne]; [tauto|].
      rewrite IHa; tauto. }
    rewrite Hset, IH.
    + now rewrite <- app_assoc.
    + unfold PyDict.keys in *. rewrite map_app, <- app_assoc. exact Hnd.
Qed.

(** X15.  [list_capabilities] lists the local agents in the order of the
    handle table, each with the capabilities it advertises (none for an
    agent without the attribute): looking an id up in the listing gives
    what the selection test reads for that agent. *)
Theorem list_capabilities_agrees (r : AgentRouter.t) :
  PyDict.wf (AgentRouter.agents r) ->
  PyDict.keys (AgentRouter.list_capabilities r)
    = PyDict.keys (AgentRouter.agents r) /\
  forall agent_id,
    PyDict.get (AgentRouter.list_capabilities r) agent_id
    = option_map advertised (PyDict.get (AgentRouter.agents r) agent_id).
Proof.
  intros Hwf. unfold AgentRouter.list_capabilities, PyDict.items.
  change (fun listing item =>
            PyDict.set listing (fst item)
              match AgentRouter.capabilities (snd item) with
              | Some l => l
              | None => []
              end)
    with (fun (listing : PyDict.t (list string))
              (item : string * AgentRouter.Agent) =>
            PyDict.set listing (fst item) (advertised (snd item))).
  rewrite (fold_set_fresh advertised (AgentRouter.agents r) PyDict.empty Hwf).
  cbn [PyDict.empty app]. split.
  - unfold PyDict.keys. rewrite map_map. reflexivity.
  - intros agent_id.
    induction (AgentRouter.agents r) as [|[k a] d IH]; simpl; [reflexivity|].
    destruct (String.eqb k agent_id); [reflexivity|].
    apply IH. now inversion Hwf.
Qed.

Lemma list_capabilities_agrees_witness :
  PyDict.get (AgentRouter.list_capabilities Demo.router1) "local-2"
  = Some ["web_search"].
Proof.
  assert (Hwf : PyDict.wf (AgentRouter.agents Demo.router1)).
  { repeat constructor. simpl. tauto. }
  rewrite (proj2 (list_capabilities_agrees Demo.router1 Hwf) "local-2").
  reflexivity.
Defined.

(** X16.  After [unregister_agent id] neither the rule scan nor the
    local scan returns that id any more, and unregistering it a second
    time raises nothing and changes neither the router nor the world. *)
Theorem router_unregister_agent
    (r : AgentRouter.t) (agent_id task_type : string)
    (required : list string) (w w' : World) :
  let r' := self (AgentRouter.unregister_agent agent_id r w) in
  AgentRouter.rule_step r' task_type required <> Some agent_id /\
  AgentRouter.local_step r' required <> Some agent_id /\
  AgentRouter.unregister_agent agent_id r' w' = mkRes (inr tt) r' w'.
Proof.
  intros r'.
  assert (Habs : PyDict.get (AgentRouter.agents r') agent_id = None).
  { subst r'. unfold AgentRouter.unregister_agent, bind, get_self,
      PyDict.contains. cbn -[PyDict.del].
    destruct (PyDict.get (AgentRouter.agents r) agent_id) eqn:E;
      cbn -[PyDict.del]; [apply get_del_eq | exact E]. }
  split; [|split].
  - unfold AgentRouter.rule_step.
    destruct (PyDict.get _ task_type) as [ids|]; [|discriminate].
    intros H. apply scan_rule_sound in H as [_ [agent [Ha _]]]. congruence.
  - unfold AgentRouter.local_step. intros H.
    apply scan_local_sound in H as [agent [Hin _]].
    apply get_None_not_In_keys in Habs. apply Habs.
    unfold PyDict.keys. apply in_map_iff. now exists (agent_id, agent).
  - unfold AgentRouter.unregister_agent at 1, bind, get_self,
      PyDict.contains. cbn. now rewrite Habs.
Qed.

(** X17.  A router without local agents over an empty directory finds
    no agent for any task, whatever its rule table holds: [route_task]
    returns the no-suitable-agent text for the task type (["general"] for
    a task without a type) and touches nothing. *)
Theorem route_nothing_registered
    (task : Task.t) (r : AgentRouter.t) (w : World) :
  AgentRouter.agents r = [] ->
  AgentRegistry.agents (A2AClient.registry (AgentRouter.a2a_client r)) = [] ->
  AgentRouter.route_task task r w =
  mkRes (inr ("No suitable agent found for task type: "
              ++ match Task.type task with
                 | Some ty => ty
                 | None => "general"
                 end)) r w.
Proof.
  intros Hagents Hreg.
  assert (Hsel : forall ty req,
             AgentRouter._select_best_agent r ty req = None).
  { intros ty req. unfold AgentRouter._select_best_agent.
    assert (Hrule : AgentRouter.rule_step r ty req = None).
    { unfold AgentRouter.rule_step.
      destruct (PyDict.get _ ty) as [ids|]; [|reflexivity].
      rewrite Hagents. induction ids as [|x ids IH]; [reflexivity|exact IH]. }
    rewrite Hrule. unfold AgentRouter.local_step, AgentRouter.external_step.
    rewrite Hagents. cbn [PyDict.items AgentRouter.scan_local].
    destruct req as [|c req]; [reflexivity|].
    apply scan_external_none. intros c' _.
    unfold AgentRegistry.discover_agents. now rewrite Hreg. }
  unfold AgentRouter.route_task, bind, get_self. cbn. now rewrite Hsel.
Qed.

Lemma route_nothing_registered_witness :
  outcome (AgentRouter.route_task (Demo.task "planning" ["workflow_planning"])
             Demo.router_empty Demo.world0)
  = inr "No suitable agent found for task type: planning".
Proof.
  rewrite (route_nothing_registered
             (Demo.task "planning" ["workflow_planning"])
             Demo.router_empty Demo.world0 eq_refl eq_refl).
  reflexivity.
Defined.

(* ===================================================================== *)
(** * Further properties of the conversation manager *)
(* ===================================================================== *)

Lemma same_session_refl (v : string) (cm : ConversationManager.t) :
  same_session v cm cm.
Proof. repeat split. Qed.

Lemma same_session_trans (v : string) (a b c : ConversationManager.t) :
  same_session v a b -> same_session v b c -> same_session v a c.
Proof.
  intros [H1 [H2 H3]] [H4 [H5 H6]]. repeat split; congruence.
Qed.

Lemma log_message_frame (cm : ConversationManager.t)
    (user_id role content : string) (w : World) (v : string) :
  let res := ConversationManager._log_message user_id role content cm w in
  ConversationManager.active_sessions (self res)
    = ConversationManager.active_sessions cm /\
  (v <> user_id -> same_session v cm (self res)).
Proof.
  unfold ConversationManager._log_message, bind, get_self, modify,
    datetime_now, ConversationManager.history_of, PyDict.contains,
    same_session.
  cbn -[PyDict.set].
  destruct (PyDict.get (ConversationManager.conversation_history cm) user_id)
    as [h|] eqn:Eh; cbn -[PyDict.set];
  destruct (PyDict.get (ConversationManager.conversation_state cm) user_id)
    as [st|] eqn:Es; cbn -[PyDict.set];
  rewrite ?get_set_eq, ?Eh, ?Es; cbn -[PyDict.set];
  (split; [reflexivity|]; intros Hne;
   rewrite ?get_set_ne by congruence; auto).
Qed.

Lemma open_session_frame (cm : ConversationManager.t) (user_id : string)
    (w : World) (v : string) :
  let known :=
    PyDict.contains (ConversationManager.conversation_state cm) user_id in
  let res :=
    (if known then ret tt
     else ConversationManager._initialize_conversation user_id) cm w in
  (known = true -> self res = cm) /\
  (v <> user_id -> same_session v cm (self res)).
Proof.
  cbv zeta.
  destruct (PyDict.contains (ConversationManager.conversation_state cm)
              user_id) eqn:Ek.
  - split; [reflexivity|]. intros _. apply same_session_refl.
  - split; [discriminate|]. intros Hne.
    unfold ConversationManager._initialize_conversation, bind, modify,
      datetime_now, print, emit, same_session.
    cbn -[PyDict.set]. rewrite !get_set_ne by congruence. auto.
Qed.

(** The five steps of [process_user_input], each started where the
    previous one ended. *)
Lemma process_user_input_chain (cm : ConversationManager.t)
    (user_id message : string) (w : World) :
  let r0 :=
    (if PyDict.contains (ConversationManager.conversation_state cm) user_id
     then ret tt
     else ConversationManager._initialize_conversation user_id) cm w in
  let r1 :=
    ConversationManager._log_message user_id "user" message
      (self r0) (world r0) in
  let r2 :=
    ConversationManager._analyze_user_message user_id message
      (self r1) (world r1) in
  exists task response,
    outcome r2 = inr task /\
    self r2 = self r1 /\
    let r3 :=
      AgentRouter.route_task task (ConversationManager.router (self r1))
        (world r2) in
    outcome r3 = inr response /\
    let r4 :=
      ConversationManager._log_message user_id "assistant" response
        (ConversationManager.set_router (self r3) (self r1)) (world r3) in
    ConversationManager.process_user_input user_id message cm w
    = mkRes (inr response) (self r4) (world r4).
Proof.
  cbv zeta. unfold ConversationManager.process_user_input.
  rewrite (bind_run get_self _ cm w cm eq_refl). cbn [get_self self world].
  destruct (open_session_spec cm user_id w) as [Ho0 _]. cbv zeta in Ho0.
  rewrite (bind_run _ _ cm w tt Ho0).
  set (r0 := (if PyDict.contains _ user_id then ret tt else _) cm w) in *.
  destruct (log_message_spec (self r0) user_id "user" message (world r0))
    as [Ho1 _]. cbv zeta in Ho1.
  rewrite (bind_run _ _ _ _ tt Ho1).
  set (r1 := ConversationManager._log_message user_id "user" message _ _)
    in *.
  destruct (analyze_spec (self r1) user_id message (world r1))
    as [task [Ho2 [Hs2 _]]]. cbv zeta in Ho2, Hs2.
  rewrite (bind_run _ _ _ _ task Ho2).
  set (r2 := ConversationManager._analyze_user_message user_id message _ _)
    in *.
  exists task.
  destruct (route_task_returns task (ConversationManager.router (self r1))
              (world r2)) as [response Ho3].
  exists response. split; [exact Ho2|]. split; [exact Hs2|].
  split; [exact Ho3|].
  assert (Ho3' : outcome (zoom ConversationManager.router
                            ConversationManager.set_router
                            (AgentRouter.route_task task)
                            (self r2) (world r2)) = inr response).
  { unfold zoom. cbn [outcome]. rewrite Hs2. exact Ho3. }
  rewrite (bind_run _ _ _ _ response Ho3').
  unfold zoom at 1 2. cbn [self world]. rewrite Hs2.
  destruct (log_message_spec
              (ConversationManager.set_router
                 (self (AgentRouter.route_task task
                          (ConversationManager.router (self r1)) (world r2)))
                 (self r1))
              user_id "assistant" response
              (world (AgentRouter.route_task task
                        (ConversationManager.router (self r1)) (world r2))))
    as [Ho4 _]. cbv zeta in Ho4.
  rewrite (bind_run _ _ _ _ tt Ho4). reflexivity.
Qed.

(** X18.  A call of [process_user_input] for one user leaves every
    other user's session state, log and activity flag as they were. *)
Theorem process_user_input_other_users
    (cm : ConversationManager.t) (user_id message other : string)
    (w : World) :
  other <> user_id ->
  same_session other cm
    (self (ConversationManager.process_user_input user_id message cm w)).
Proof.
  intros Hne.
  destruct (process_user_input_chain cm user_id message w)
    as [task [response [_ [_ [_ Hrun]]]]].
  cbv zeta in Hrun. rewrite Hrun. cbn [self].
  eapply same_session_trans;
    [|apply (proj2 (log_message_frame _ user_id "assistant" response _ other)
                Hne)].
  eapply same_session_trans;
    [|apply (same_session_refl other
               (ConversationManager.set_router _ _))].
  eapply same_session_trans;
    [|apply (proj2 (log_message_frame _ user_id "user" message _ other) Hne)].
  apply (proj2 (open_session_frame cm user_id w other) Hne).
Qed.

Lemma process_user_input_other_users_witness :
  same_session "alice" Demo.manager_alice
    (self (ConversationManager.process_user_input "bob" "find a flat"
             Demo.manager_alice Demo.world0)).
Proof.
  exact (process_user_input_other_users Demo.manager_alice "bob"
           "find a flat" "alice" Demo.world0 ltac:(discriminate)).
Defined.

Lemma slice_from_window {A} (l : list A) (x : A) :
  slice_from (l ++ [x])%list (-5)
  = (skipn (length l - 4) l ++ [x])%list.
Proof.
  etransitivity;
    [exact (slice_from_last (l ++ [x])%list 5 ltac:(lia))|].
  rewrite length_app. cbn [length].
  replace (length l + 1 - Z.to_nat 5) with (length l - 4) by lia.
  rewrite skipn_app.
  replace (length l - 4 - length l) with 0 by lia. reflexivity.
Qed.

(** X19.  The task that [process_user_input] hands to the router carries
    a window of the log: the new user entry preceded by the four entries
    before it, or by all of them when there are fewer. *)
Theorem task_carries_last_five
    (cm : ConversationManager.t) (user_id message : string) (w : World) :
  let before :=
    if PyDict.contains (ConversationManager.conversation_state cm) user_id
    then ConversationManager.history_of cm user_id else [] in
  exists response task rw t older recent,
    outcome (ConversationManager.process_user_input user_id message cm w)
      = inr response /\
    outcome (AgentRouter.route_task task (ConversationManager.router cm) rw)
      = inr response /\
    Task.conversation_history task
      = (recent ++ [mkEntry "user" message t])%list /\
    before = (older ++ recent)%list /\
    length recent = Nat.min 4 (length before).
Proof.
  cbv zeta.
  destruct (process_user_input_spec cm user_id message w)
    as [response [t1 [t2 [task [rw [Ho [_ [_ [Hc Hr]]]]]]]]].
  cbv zeta in Ho, Hc, Hr.
  set (before := if PyDict.contains _ user_id then _ else _) in *.
  exists response, task, rw, t1,
    (firstn (length before - 4) before), (skipn (length before - 4) before).
  split; [exact Ho|]. split; [exact Hr|]. split; [|split].
  - rewrite Hc. apply slice_from_window.
  - symmetry. apply firstn_skipn.
  - rewrite length_skipn. lia.
Qed.

(** What [_cleanup_user_data] leaves behind. *)
Lemma cleanup_user_data_spec (cm : ConversationManager.t)
    (user_id : string) (w : World) (v : string) :
  let res := ConversationManager._cleanup_user_data user_id cm w in
  outcome res = inr tt /\
  world res = w /\
  ConversationManager.router (self res) = ConversationManager.router cm /\
  no_session user_id (self res) /\
  (v <> user_id -> same_session v cm (self res)).
Proof.
  unfold ConversationManager._cleanup_user_data, bind, get_self, modify,
    PyDict.contains, no_session, same_session.
  cbn -[PyDict.del].
  destruct (PyDict.get (ConversationManager.conversation_state cm) user_id)
    eqn:Es; cbn -[PyDict.del];
  destruct (PyDict.get (ConversationManager.conversation_history cm) user_id)
    eqn:Eh; cbn -[PyDict.del];
  destruct (PyDict.get (ConversationManager.active_sessions cm) user_id)
    eqn:Ea; cbn -[PyDict.del];
  (split; [reflexivity|]; split; [reflexivity|]; split; [reflexivity|];
   split;
   [rewrite ?get_del_eq; repeat split; assumption || reflexivity
   |intros Hne; rewrite ?get_del_ne by congruence; repeat split]).
Qed.

(** X20.  [_cleanup_user_data] raises nothing and removes everything the
    manager holds for the user: session state, log and activity flag, so
    that the history of the user reads empty; every other user keeps
    what they had. *)
Theorem cleanup_user_data_removes_all
    (cm : ConversationManager.t) (user_id other : string) (w : World) :
  other <> user_id ->
  let res := ConversationManager._cleanup_user_data user_id cm w in
  outcome res = inr tt /\
  no_session user_id (self res) /\
  ConversationManager.get_conversation_history (self res) user_id None = [] /\
  same_session other cm (self res).
Proof.
  intros Hne res.
  destruct (cleanup_user_data_spec cm user_id w other)
    as [Ho [_ [_ [Hno Hsame]]]].
  cbv zeta in Ho, Hno, Hsame. fold res in Ho, Hno, Hsame.
  split; [exact Ho|]. split; [exact Hno|]. split; [|auto].
  unfold ConversationManager.get_conversation_history,
    ConversationManager.history_of.
  destruct Hno as [_ [Hh _]]. now rewrite Hh.
Qed.

Lemma cleanup_user_data_removes_all_witness :
  ConversationManager.get_conversation_history
    (self (ConversationManager._cleanup_user_data "alice"
             Demo.manager_alice Demo.world0)) "alice" None = [].
Proof.
  exact (proj1 (proj2 (proj2 (cleanup_user_data_removes_all
                                Demo.manager_alice "alice" "bob" Demo.world0
                                ltac:(discriminate))))).
Defined.

Lemma no_session_same (v : string) (a b : ConversationManager.t) :
  no_session v a -> same_session v a b -> no_session v b.
Proof.
  intros [H1 [H2 H3]] [H4 [H5 H6]]. repeat split; congruence.
Qed.

(** The loop of [cleanup_inactive_conversations]: the users of the list
    lose everything, the others keep everything. *)
Lemma cleanup_loop (users : list string) (cm : ConversationManager.t)
    (w : World) (v : string) :
  let res :=
    for_each users
      (fun user_id =>
         ConversationManager._cleanup_user_data user_id ;;
         print ("Cleaned up inactive conversation for user: " ++ user_id))
      cm w in
  outcome res = inr tt /\
  (In v users -> no_session v (self res)) /\
  (~ In v users -> same_session v cm (self res)).
Proof.
  revert cm w. induction users as [|u users IH]; intros cm w.
  - cbn. split; [reflexivity|]. split; [tauto|].
    intros _. apply same_session_refl.
  - destruct (cleanup_user_data_spec cm u w v) as [Ho [Hw [_ [Hno Hsame]]]].
    cbv zeta in Ho, Hw, Hno, Hsame.
    set (body := fun user_id : string =>
                   ConversationManager._cleanup_user_data user_id ;;
                   print ("Cleaned up inactive conversation for user: "
                          ++ user_id)).
    assert (Hbody : outcome (body u cm w) = inr tt /\
                    self (body u cm w)
                    = self (ConversationManager._cleanup_user_data u cm w)).
    { unfold body. rewrite (bind_run _ _ cm w tt Ho). auto. }
    destruct Hbody as [Hbo Hbs].
    change (for_each (u :: users) body cm w)
      with (bind (body u) (fun _ => for_each users body) cm w).
    rewrite (bind_run _ _ cm w tt Hbo). rewrite Hbs.
    destruct (IH (self (ConversationManager._cleanup_user_data u cm w))
                 (world (body u cm w))) as [Ho' [Hin' Hout']].
    cbv zeta in Ho', Hin', Hout'. fold body in Ho', Hin', Hout'.
    split; [exact Ho'|]. split.
    + intros [<-|Hin].
      * destruct (in_dec string_dec u users) as [Hi|Hn]; [auto|].
        eapply no_session_same; [exact Hno | auto].
      * auto.
    + intros Hnot.
      assert (Hvu : v <> u) by (intros ->; apply Hnot; now left).
      eapply same_session_trans; [apply Hsame, Hvu|].
      apply Hout'. intros Hin. apply Hnot. now right.
Qed.

(** X21.  [cleanup_inactive_conversations hours] raises nothing; with
    clock readings counted in seconds, it removes the session state, the
    log and the activity flag of exactly the users whose last activity is
    earlier than the reading of the clock less [hours * 3600], and every
    other user keeps what they had. *)
Theorem cleanup_inactive_removes_stale
    (cm : ConversationManager.t) (hours : Z) (w : World) (user_id : string) :
  PyDict.wf (ConversationManager.conversation_state cm) ->
  let res := ConversationManager.cleanup_inactive_conversations hours cm w in
  let cutoff_time := (Z.of_nat (clock w) - hours * 3600)%Z in
  outcome res = inr tt /\
  (forall st,
      PyDict.get (ConversationManager.conversation_state cm) user_id = Some st
      ->
      (Z.of_nat (ConversationManager.last_activity st) < cutoff_time)%Z ->
      no_session user_id (self res)) /\
  (forall st,
      PyDict.get (ConversationManager.conversation_state cm) user_id = Some st
      ->
      (cutoff_time <= Z.of_nat (ConversationManager.last_activity st))%Z ->
      same_session user_id cm (self res)) /\
  (PyDict.get (ConversationManager.conversation_state cm) user_id = None ->
   same_session user_id cm (self res)).
Proof.
  intros Hwf res cutoff_time. subst res.
  unfold ConversationManager.cleanup_inactive_conversations.
  rewrite (bind_run datetime_now _ cm w (clock w) eq_refl).
  change (self (datetime_now cm w)) with cm.
  set (w1 := world (datetime_now cm w)).
  rewrite (bind_run get_self _ cm w1 cm eq_refl).
  change (self (get_self cm w1)) with cm.
  change (world (get_self cm w1)) with w1. fold cutoff_time.
  set (users := map fst (filter _ _)).
  assert (Hin : forall st,
             PyDict.get (ConversationManager.conversation_state cm) user_id
             = Some st ->
             (In user_id users <->
              (Z.of_nat (ConversationManager.last_activity st)
               < cutoff_time)%Z)).
  { intros st Hget. subst users. rewrite in_map_iff. split.
    - intros [[u st'] [Hu Hf]]. simpl in Hu. subst u.
      apply filter_In in Hf as [Hi Hlt]. simpl in Hlt.
      apply (In_get_wf _ _ _ Hwf) in Hi.
      assert (st' = st) by congruence. subst st'.
      now apply Z.ltb_lt.
    - intros Hlt. exists (user_id, st). split; [reflexivity|].
      apply filter_In. split; [now apply get_Some_In|].
      simpl. now apply Z.ltb_lt. }
  destruct (cleanup_loop users cm w1 user_id) as [Ho [Hyes Hno]].
  cbv zeta in Ho, Hyes, Hno.
  split; [exact Ho|]. split; [|split].
  - intros st Hget Hlt. apply Hyes. now apply (Hin st Hget).
  - intros st Hget Hge. apply Hno. intros Hu.
    apply (Hin st Hget) in Hu. lia.
  - intros Hnone. apply Hno. subst users. rewrite in_map_iff.
    intros [[u st] [Hu Hf]]. simpl in Hu. subst u.
    apply filter_In in Hf as [Hi _].
    apply (In_get_wf _ _ _ Hwf) in Hi. congruence.
Qed.

Lemma cleanup_inactive_removes_stale_witness :
  let w := mkWorld 4000 [] in
  no_session "alice"
    (self (ConversationManager.cleanup_inactive_conversations 1
             Demo.manager_alice w)) /\
  same_session "alice" Demo.manager_alice
    (self (ConversationManager.cleanup_inactive_conversations 2
             Demo.manager_alice w)).
Proof.
  assert (Hwf : PyDict.wf
                  (ConversationManager.conversation_state Demo.manager_alice)).
  { repeat constructor. simpl. tauto. }
  split.
  - apply (proj1 (proj2 (cleanup_inactive_removes_stale Demo.manager_alice 1
                           (mkWorld 4000 []) "alice" Hwf))
             (ConversationManager.mkState 0 [] [] 6) eq_refl).
    reflexivity.
  - apply (proj1 (proj2 (proj2 (cleanup_inactive_removes_stale
                                  Demo.manager_alice 2
                                  (mkWorld 4000 []) "alice" Hwf)))
             (ConversationManager.mkState 0 [] [] 6) eq_refl).
    discriminate.
Defined.

(** For a user with a session, [process_user_input] does not touch the
    table of activity flags. *)
Lemma process_user_input_known_active (cm : ConversationManager.t)
    (user_id message : string) (w : World) :
  PyDict.contains (ConversationManager.conversation_state cm) user_id = true
  ->
  ConversationManager.active_sessions
    (self (ConversationManager.process_user_input user_id message cm w))
  = ConversationManager.active_sessions cm.
Proof.
  intros Hk.
  destruct (process_user_input_chain cm user_id message w)
    as [task [response [_ [_ [_ Hrun]]]]].
  cbv zeta in Hrun. rewrite Hrun. cbn [self].
  rewrite (proj1 (log_message_frame _ user_id "assistant" response _ user_id)).
  cbn [ConversationManager.set_router ConversationManager.active_sessions].
  rewrite (proj1 (log_message_frame _ user_id "user" message _ user_id)).
  now rewrite (proj1 (open_session_frame cm user_id w user_id) Hk).
Qed.

(** X22.  [end_conversation] only lowers the activity flag of the user:
    the session state and the log stay.  A later [process_user_input] for
    that user is served as usual and extends the log, and the flag stays
    lowered. *)
Theorem end_conversation_then_process
    (cm : ConversationManager.t) (user_id message : string) (w : World) :
  PyDict.contains (ConversationManager.conversation_state cm) user_id = true
  ->
  PyDict.contains (ConversationManager.active_sessions cm) user_id = true ->
  let r1 := ConversationManager.end_conversation user_id cm w in
  let r2 :=
    ConversationManager.process_user_input user_id message
      (self r1) (world r1) in
  outcome r1 = inr tt /\
  ConversationManager.conversation_state (self r1)
    = ConversationManager.conversation_state cm /\
  ConversationManager.conversation_history (self r1)
    = ConversationManager.conversation_history cm /\
  PyDict.get (ConversationManager.active_sessions (self r1)) user_id
    = Some false /\
  (exists response,
      outcome r2 = inr response /\
      map said (ConversationManager.history_of (self r2) user_id)
      = (map said (ConversationManager.history_of cm user_id)
         ++ [("user", message); ("assistant", response)])%list) /\
  PyDict.get (ConversationManager.active_sessions (self r2)) user_id
    = Some false.
Proof.
  intros Hk Ha r1 r2.
  assert (H1 : self r1 =
               ConversationManager.set_active_sessions
                 (PyDict.set (ConversationManager.active_sessions cm)
                    user_id false) cm /\ outcome r1 = inr tt).
  { subst r1. unfold ConversationManager.end_conversation, bind, get_self.
    cbn -[PyDict.set]. rewrite Ha. cbn -[PyDict.set]. auto. }
  destruct H1 as [Hs1 Ho1].
  assert (Hk1 : PyDict.contains
                  (ConversationManager.conversation_state (self r1)) user_id
                = true) by (rewrite Hs1; exact Hk).
  split; [exact Ho1|]. split; [now rewrite Hs1|]. split; [now rewrite Hs1|].
  split; [rewrite Hs1; cbn -[PyDict.set]; apply get_set_eq|].
  split.
  - destruct (process_user_input_spec (self r1) user_id message (world r1))
      as [response [t1 [t2 [_ [_ [Ho [Hh _]]]]]]].
    cbv zeta in Ho, Hh. rewrite Hk1 in Hh. fold r2 in Ho, Hh.
    exists response. split; [exact Ho|].
    rewrite Hh, map_app. f_equal. now rewrite Hs1.
  - subst r2.
    rewrite (process_user_input_known_active (self r1) user_id message
               (world r1) Hk1).
    rewrite Hs1. cbn -[PyDict.set]. apply get_set_eq.
Qed.

Lemma end_conversation_then_process_witness :
  let r1 := ConversationManager.end_conversation "alice" Demo.manager_alice
              Demo.world0 in
  PyDict.get
    (ConversationManager.active_sessions
       (self (ConversationManager.process_user_input "alice" "hello again"
                (self r1) (world r1)))) "alice"
  = Some false.
Proof.
  exact (proj2 (proj2 (proj2 (proj2 (proj2
           (end_conversation_then_process Demo.manager_alice "alice"
              "hello again" Demo.world0 eq_refl eq_refl)))))).
Defined.

Lemma get_dict_update {V} (patch d : PyDict.t V) (key : string) :
  PyDict.wf patch ->
  PyDict.get (dict_update d patch) key =
  match PyDict.get patch key with
  | Some v => Some v
  | None => PyDict.get d key
  end.
Proof.
  unfold dict_update, PyDict.wf, PyDict.keys.
  revert d. induction patch as [|[k v] patch IH]; intros d Hwf; simpl;
    [reflexivity|].
  inversion Hwf as [|? ? Hnin Hnd]; subst.
  rewrite (IH _ Hnd).
  destruct (String.eqb_spec k key) as [->|Hne].
  - assert (Hnone : PyDict.get patch key = None)
      by (now apply get_None_not_In_keys).
    rewrite Hnone. apply get_set_eq.
  - destruct (PyDict.get patch key); [reflexivity|].
    now apply get_set_ne.
Qed.

(** X23.  [update_conversation_context] raises nothing.  For a user
    without a session it changes nothing and prints nothing.  For a user
    with one it merges the patch into the context, key by key, the patch
    winning; preferences, timestamps and the log stay as they were, and
    the next task built for the user carries the merged context. *)
Theorem update_context_merges
    (cm : ConversationManager.t) (user_id : string)
    (context_updates : PyDict.t string) (w : World) :
  PyDict.wf context_updates ->
  let res :=
    ConversationManager.update_conversation_context user_id context_updates
      cm w in
  (PyDict.get (ConversationManager.conversation_state cm) user_id = None ->
   res = mkRes (inr tt) cm w) /\
  (forall st,
      PyDict.get (ConversationManager.conversation_state cm) user_id = Some st
      ->
      exists st',
        outcome res = inr tt /\
        PyDict.get (ConversationManager.conversation_state (self res)) user_id
          = Some st' /\
        (forall key,
            PyDict.get (ConversationManager.context st') key =
            match PyDict.get context_updates key with
            | Some value => Some value
            | None => PyDict.get (ConversationManager.context st) key
            end) /\
        ConversationManager.preferences st'
          = ConversationManager.preferences st /\
        ConversationManager.started_at st'
          = ConversationManager.started_at st /\
        ConversationManager.last_activity st'
          = ConversationManager.last_activity st /\
        ConversationManager.conversation_history (self res)
          = ConversationManager.conversation_history cm /\
        forall message w',
          exists task,
            outcome (ConversationManager._analyze_user_message user_id
                       message (self res) w') = inr task /\
            Task.context task = ConversationManager.context st').
Proof.
  intros Hwf res. subst res.
  unfold ConversationManager.update_conversation_context, bind, get_self.
  cbn -[PyDict.set dict_update]. split.
  - intros Hnone. now rewrite Hnone.
  - intros st Hget. rewrite Hget. cbn -[PyDict.set dict_update].
    eexists. split; [reflexivity|]. split; [apply get_set_eq|].
    cbn -[PyDict.set dict_update].
    split; [intros key; now apply get_dict_update|].
    repeat (split; [reflexivity|]).
    intros message w'.
    unfold ConversationManager._analyze_user_message.
    destruct (ConversationManager.classify message) as [ty caps].
    unfold bind, get_self. cbn -[PyDict.set dict_update].
    rewrite get_set_eq. eexists. split; reflexivity.
Qed.

Lemma update_context_merges_witness :
  ConversationManager.update_conversation_context "bob" [("topic", "cats")]
    Demo.manager_alice Demo.world0
  = mkRes (inr tt) Demo.manager_alice Demo.world0 /\
  exists st',
    PyDict.get
      (ConversationManager.conversation_state
         (self (ConversationManager.update_conversation_context "alice"
                  [("topic", "cats")] Demo.manager_alice Demo.world0)))
      "alice" = Some st' /\
    PyDict.get (ConversationManager.context st') "topic" = Some "cats".
Proof.
  assert (Hwf : PyDict.wf [("topic", "cats")]).
  { repeat constructor. simpl. tauto. }
  split.
  - exact (proj1 (update_context_merges Demo.manager_alice "bob"
                    [("topic", "cats")] Demo.world0 Hwf) eq_refl).
  - destruct (proj2 (update_context_merges Demo.manager_alice "alice"
                       [("topic", "cats")] Demo.world0 Hwf)
                (ConversationManager.mkState 0 [] [] 6) eq_refl)
      as [st' [_ [Hget [Hctx _]]]].
    exists st'. split; [exact Hget|]. rewrite Hctx. reflexivity.
Defined.

(** X24.  [set_user_preferences] raises nothing and leaves the user with
    a session whose preferences are the ones given, the previous ones
    being replaced as a whole.  For a user who had a session, context,
    timestamps, log and activity flag stay as they were; for a new user a
    session is opened first, with an empty context, an empty log and the
    activity flag raised. *)
Theorem set_user_preferences_replaces
    (cm : ConversationManager.t) (user_id : string)
    (preferences : PyDict.t string) (w : World) :
  let res :=
    ConversationManager.set_user_preferences user_id preferences cm w in
  exists st',
    outcome res = inr tt /\
    PyDict.get (ConversationManager.conversation_state (self res)) user_id
      = Some st' /\
    ConversationManager.preferences st' = preferences /\
    (forall st,
        PyDict.get (ConversationManager.conversation_state cm) user_id
          = Some st ->
        ConversationManager.context st' = ConversationManager.context st /\
        ConversationManager.started_at st'
          = ConversationManager.started_at st /\
        ConversationManager.last_activity st'
          = ConversationManager.last_activity st /\
        ConversationManager.conversation_history (self res)
          = ConversationManager.conversation_history cm /\
        ConversationManager.active_sessions (self res)
          = ConversationManager.active_sessions cm) /\
    (PyDict.get (ConversationManager.conversation_state cm) user_id = None ->
     ConversationManager.context st' = [] /\
     PyDict.get (ConversationManager.conversation_history (self res)) user_id
       = Some [] /\
     PyDict.get (ConversationManager.active_sessions (self res)) user_id
       = Some true).
Proof.
  cbv zeta.
  unfold ConversationManager.set_user_preferences, bind, get_self,
    PyDict.contains.
  cbn -[PyDict.set].
  destruct (PyDict.get (ConversationManager.conversation_state cm) user_id)
    as [st|] eqn:Es; cbn -[PyDict.set].
  - rewrite Es. cbn -[PyDict.set]. eexists.
    split; [reflexivity|]. split; [apply get_set_eq|].
    split; [reflexivity|]. split; [|discriminate].
    intros st0 H. injection H as <-. repeat split.
  - unfold ConversationManager._initialize_conversation, bind, modify,
      datetime_now, print, emit.
    cbn -[PyDict.set]. rewrite get_set_eq. cbn -[PyDict.set]. eexists.
    split; [reflexivity|]. split; [apply get_set_eq|].
    split; [reflexivity|]. split; [discriminate|].
    intros _. cbn -[PyDict.set]. rewrite !get_set_eq. auto.
Qed.

Lemma set_user_preferences_replaces_witness :
  exists st',
    PyDict.get
      (ConversationManager.conversation_state
         (self (ConversationManager.set_user_preferences "bob"
                  [("language", "en")] Demo.manager_alice Demo.world0)))
      "bob" = Some st' /\
    ConversationManager.preferences st' = [("language", "en")] /\
    ConversationManager.context st' = [].
Proof.
  destruct (set_user_preferences_replaces Demo.manager_alice "bob"
              [("language", "en")] Demo.world0)
    as [st' [_ [Hget [Hprefs [_ Hnew]]]]].
  exists st'. split; [exact Hget|]. split; [exact Hprefs|].
  exact (proj1 (Hnew eq_refl)).
Defined.

(* ===================================================================== *)
(** * Properties of the agent base class *)
(* ===================================================================== *)

Lemma set_a2a_client_same (a : BaseAgent.t) :
  BaseAgent.set_a2a_client (BaseAgent.a2a_client a) a = a.
Proof. now destruct a. Qed.

(** What a delegation through the agent answers. *)
Lemma delegate_to_other_agent_spec
    (a : BaseAgent.t) (target : string) (task : Task.t) (w : World) :
  let client := BaseAgent.a2a_client a in
  let message :=
    mkMessage (A2AClient.agent_id client) (Some target) "task_delegation"
      (TaskPayload task) (clock w)
      (Some (A2AClient.agent_id client, target, S (clock w))) in
  let res := BaseAgent.delegate_to_other_agent target task a w in
  self res = a /\
  outcome res =
    inr match AgentRegistry.get_agent (A2AClient.registry client) target with
        | None => Failed ("Agent " ++ target ++ " not found in registry")
        | Some card =>
            match A2AClient.transport client card message (S (S (clock w)))
            with
            | inr response => Succeeded response
            | inl cause =>
                Failed ("Failed to delegate task to " ++ target ++ ": "
                        ++ str_exc cause)
            end
        end.
Proof.
  cbv zeta.
  unfold BaseAgent.delegate_to_other_agent, try_except, bind, zoom,
    A2AClient.delegate_task, bind, get_self.
  cbn.
  destruct (AgentRegistry.get_agent _ target) as [card|]; cbn.
  - unfold try_except, A2AClient._send_message, bind. cbn.
    destruct (A2AClient.transport _ card _ _); cbn;
      now rewrite set_a2a_client_same.
  - now rewrite set_a2a_client_same.
Qed.

(** X25.  [delegate_to_other_agent] never raises and leaves the agent as
    it was: it answers with the transport's response as a success, with
    the not-found text as a failure when the directory does not know the
    target, and with the delegation-failure text, cause included, when
    the transport raises. *)
Theorem delegate_to_other_agent_never_raises
    (a : BaseAgent.t) (target : string) (task : Task.t) (w : World) :
  let client := BaseAgent.a2a_client a in
  let res := BaseAgent.delegate_to_other_agent target task a w in
  self res = a /\
  (exists answer, outcome res = inr answer) /\
  (AgentRegistry.get_agent (A2AClient.registry client) target = None ->
   res = mkRes (inr (Failed ("Agent " ++ target ++ " not found in registry")))
           a w) /\
  (forall card,
      AgentRegistry.get_agent (A2AClient.registry client) target = Some card
      ->
      exists now : nat, exists message : Message,
        msg_payload message = TaskPayload task /\
        outcome res =
          inr match A2AClient.transport client card message now with
              | inr response => Succeeded response
              | inl cause =>
                  Failed ("Failed to delegate task to " ++ target ++ ": "
                          ++ str_exc cause)
              end).
Proof.
  cbv zeta.
  destruct (delegate_to_other_agent_spec a target task w) as [Hs Ho].
  cbv zeta in Hs, Ho.
  split; [exact Hs|]. split; [eauto|]. split.
  - intros Habs.
    unfold BaseAgent.delegate_to_other_agent, try_except, bind, zoom,
      A2AClient.delegate_task, bind, get_self.
    cbn. rewrite Habs. cbn. now rewrite set_a2a_client_same.
  - intros card Hget. rewrite Hget in Ho. eexists. eexists.
    split; [|exact Ho]. reflexivity.
Qed.

Lemma delegate_to_other_agent_never_raises_witness :
  outcome (BaseAgent.delegate_to_other_agent "ghost"
             (Demo.task "research" []) Demo.researcher Demo.world0)
  = inr (Failed "Agent ghost not found in registry").
Proof.
  rewrite (proj1 (proj2 (proj2 (delegate_to_other_agent_never_raises
                                  Demo.researcher "ghost"
                                  (Demo.task "research" []) Demo.world0)))
             eq_refl).
  reflexivity.
Defined.

(** One turn of the loop of [collaborate_with_agents]. *)
Lemma collaborate_loop_cons (x : string) (ids : list string) (task : Task.t)
    (results : PyDict.t Delegation) (a : BaseAgent.t) (w : World) :
  exists answer,
    (AgentRegistry.get_agent (A2AClient.registry (BaseAgent.a2a_client a)) x
     = None ->
     answer = Failed ("Agent " ++ x ++ " not found in registry")) /\
    BaseAgent.collaborate_loop (x :: ids) task results a w
    = BaseAgent.collaborate_loop ids task (PyDict.set results x answer) a
        (world (BaseAgent.delegate_to_other_agent x task a w)).
Proof.
  destruct (delegate_to_other_agent_spec a x task w) as [Hs Ho].
  cbv zeta in Hs, Ho.
  set (answer := match AgentRegistry.get_agent _ x with
                 | Some _ => _ | None => _ end) in Ho.
  exists answer. split.
  - intros Hnone. subst answer. now rewrite Hnone.
  - assert (Hstep :
      try_except
        (result <- BaseAgent.delegate_to_other_agent x task ;;
         ret (PyDict.set results x result))
        (fun e => ret (PyDict.set results x (Failed (str_exc e)))) a w
      = mkRes (inr (PyDict.set results x answer)) a
          (world (BaseAgent.delegate_to_other_agent x task a w))).
    { unfold try_except. rewrite (bind_run _ _ a w answer Ho).
      unfold ret. cbn [outcome]. now rewrite Hs. }
    cbn [BaseAgent.collaborate_loop].
    rewrite (bind_run _ _ a w (PyDict.set results x answer))
      by now rewrite Hstep.
    now rewrite Hstep.
Qed.

(** An entry of the dictionary stays when its id is not visited again. *)
Lemma collaborate_loop_keeps (id : string) (ids : list string)
    (task : Task.t) (a : BaseAgent.t) :
  ~ In id ids ->
  forall (results : PyDict.t Delegation) (w : World) (v : Delegation)
         (results' : PyDict.t Delegation),
    PyDict.get results id = Some v ->
    outcome (BaseAgent.collaborate_loop ids task results a w) = inr results'
    -> PyDict.get results' id = Some v.
Proof.
  induction ids as [|y ids IH]; intros Hn results w v results' Hget Hrun.
  - cbn in Hrun. injection Hrun as <-. exact Hget.
  - destruct (collaborate_loop_cons y ids task results a w)
      as [answer [_ Heq]].
    rewrite Heq in Hrun.
    apply (IH ltac:(intros Hi; apply Hn; now right)
              (PyDict.set results y answer)
              (world (BaseAgent.delegate_to_other_agent y task a w))
              v results'); [|exact Hrun].
    rewrite get_set_ne; [exact Hget|].
    intros ->. apply Hn. now left.
Qed.

(** The loop of [collaborate_with_agents]. *)
Lemma collaborate_loop_spec (agent_ids : list string) (task : Task.t)
    (results : PyDict.t Delegation) (a : BaseAgent.t) (w : World) :
  let registry := A2AClient.registry (BaseAgent.a2a_client a) in
  let res := BaseAgent.collaborate_loop agent_ids task results a w in
  self res = a /\
  exists results',
    outcome res = inr results' /\
    (PyDict.wf results -> PyDict.wf results') /\
    (forall id,
        PyDict.contains results' id = true <->
        PyDict.contains results id = true \/ In id agent_ids) /\
    (forall id,
        In id agent_ids ->
        AgentRegistry.get_agent registry id = None ->
        PyDict.get results' id
        = Some (Failed ("Agent " ++ id ++ " not found in registry"))).
Proof.
  cbv zeta. revert results w.
  induction agent_ids as [|x ids IH]; intros results w.
  - cbn. split; [reflexivity|]. exists results. repeat split; auto.
    + intros [H|[]]. exact H.
    + intros id [].
  - destruct (collaborate_loop_cons x ids task results a w)
      as [answer [Hans Heq]].
    rewrite Heq.
    destruct (IH (PyDict.set results x answer)
                 (world (BaseAgent.delegate_to_other_agent x task a w)))
      as [Hs' [results' [Ho' [Hwf' [Hkeys' Hunk']]]]].
    split; [exact Hs'|]. exists results'. split; [exact Ho'|].
    split; [intros Hwf; apply Hwf'; now apply wf_set|]. split.
    + intros id. rewrite Hkeys'.
      destruct (String.eqb_spec x id) as [->|Hne].
      * rewrite contains_set_eq. simpl. tauto.
      * rewrite (contains_set_ne results x id answer Hne). simpl.
        split; [tauto|]. intros [H|[H|H]]; auto; contradiction.
    + intros id Hin Hnone.
      destruct (in_dec string_dec id ids) as [Hi|Hn]; [now apply Hunk'|].
      destruct Hin as [->|Hin]; [|contradiction].
      apply (collaborate_loop_keeps id ids task a Hn
               (PyDict.set results id answer)
               (world (BaseAgent.delegate_to_other_agent id task a w))
               _ results'); [|exact Ho'].
      rewrite get_set_eq. now rewrite (Hans Hnone).
Qed.

(** X26.  [collaborate_with_agents] never raises and leaves the agent as
    it was; the dictionary it returns has exactly one entry for each
    distinct id of the list, and the entry of an id unknown to the
    directory is the failure with the not-found text. *)
Theorem collaborate_with_agents_total
    (a : BaseAgent.t) (agent_ids : list string) (task : Task.t) (w : World) :
  let registry := A2AClient.registry (BaseAgent.a2a_client a) in
  let res := BaseAgent.collaborate_with_agents agent_ids task a w in
  self res = a /\
  exists results,
    outcome res = inr results /\
    PyDict.wf results /\
    (forall id, PyDict.contains results id = true <-> In id agent_ids) /\
    (forall id,
        In id agent_ids ->
        AgentRegistry.get_agent registry id = None ->
        PyDict.get results id
        = Some (Failed ("Agent " ++ id ++ " not found in registry"))).
Proof.
  cbv zeta. unfold BaseAgent.collaborate_with_agents.
  destruct (collaborate_loop_spec agent_ids task PyDict.empty a w)
    as [Hs [results [Ho [Hwf [Hkeys Hunk]]]]].
  split; [exact Hs|]. exists results. split; [exact Ho|].
  split; [apply Hwf, wf_empty|]. split; [|exact Hunk].
  intros id. rewrite Hkeys. cbn. split; [intros [H|H]|]; auto.
  discriminate.
Qed.

Lemma collaborate_with_agents_total_witness :
  exists results,
    outcome (BaseAgent.collaborate_with_agents ["ghost"; "remote-2"; "ghost"]
               (Demo.task "research" []) Demo.researcher Demo.world0)
      = inr results /\
    PyDict.get results "ghost"
      = Some (Failed "Agent ghost not found in registry").
Proof.
  destruct (collaborate_with_agents_total Demo.researcher
              ["ghost"; "remote-2"; "ghost"] (Demo.task "research" [])
              Demo.world0) as [_ [results [Ho [_ [_ Hunk]]]]].
  exists results. split; [exact Ho|].
  rewrite (Hunk "ghost" ltac:(now left) eq_refl). reflexivity.
Defined.

Lemma broadcast_status_run (c : A2AClient.t) (status : PyDict.t string)
    (w : World) :
  outcome (A2AClient.broadcast_status status c w) = inr tt /\
  self (A2AClient.broadcast_status status c w) = c.
Proof.
  unfold A2AClient.broadcast_status, bind, get_self, datetime_now.
  cbn [outcome self world].
  destruct (broadcast_loop c
              (mkMessage (A2AClient.agent_id c) None "status_update"
                 (StatusPayload status) (clock w) None)
              (PyDict.keys (A2AClient.status_listeners c))
              (mkWorld (S (clock w)) (trace w))) as [Ho [Hs _]].
  cbv zeta in Ho, Hs. now rewrite Ho, Hs.
Qed.

Lemma set_status_run (a : BaseAgent.t) (status : string) (w : World) :
  outcome (BaseAgent.set_status status a w) = inr tt /\
  self (BaseAgent.set_status status a w)
  = BaseAgent.mk (BaseAgent.class_name a) (BaseAgent.agent_id a)
      (BaseAgent.a2a_client a) (BaseAgent.tools a) (BaseAgent.memory a)
      (BaseAgent.capabilities a) status.
Proof.
  unfold BaseAgent.set_status, bind, modify, get_self, zoom.
  cbn [outcome self world BaseAgent.a2a_client BaseAgent.agent_id].
  destruct (broadcast_status_run (BaseAgent.a2a_client a)
              [("agent_id", BaseAgent.agent_id a); ("status", status)] w)
    as [Ho Hs].
  rewrite Ho, Hs. cbn. auto.
Qed.

Lemma registry_unregister_run (r : AgentRegistry.t) (id : string)
    (w : World) :
  outcome (AgentRegistry.unregister_agent id r w) = inr tt /\
  AgentRegistry.get_agent (self (AgentRegistry.unregister_agent id r w)) id
  = None /\
  forall other,
    other <> id ->
    AgentRegistry.get_agent (self (AgentRegistry.unregister_agent id r w))
      other
    = AgentRegistry.get_agent r other.
Proof.
  destruct r as [d].
  unfold AgentRegistry.unregister_agent, bind, get_self, PyDict.contains,
    AgentRegistry.get_agent.
  cbn -[PyDict.del].
  destruct (PyDict.get d id) eqn:E; cbn -[PyDict.del].
  - split; [reflexivity|]. split; [apply get_del_eq|].
    intros other Hne. apply get_del_ne. congruence.
  - auto.
Qed.

(** X27.  [shutdown] never raises, whatever the transport does with the
    status broadcast.  Afterwards the agent has the status
    ["shutting_down"] and an empty memory, the directory it works with has
    no record under its id and still has every other record, and its
    subscriber table is as before. *)
Theorem shutdown_leaves_directory
    (a : BaseAgent.t) (w : World) :
  let res := BaseAgent.shutdown a w in
  let registry' := A2AClient.registry (BaseAgent.a2a_client (self res)) in
  outcome res = inr tt /\
  BaseAgent.status (self res) = "shutting_down" /\
  BaseAgent.memory (self res) = [] /\
  BaseAgent.agent_id (self res) = BaseAgent.agent_id a /\
  AgentRegistry.get_agent registry' (BaseAgent.agent_id a) = None /\
  (forall other,
      other <> BaseAgent.agent_id a ->
      AgentRegistry.get_agent registry' other
      = AgentRegistry.get_agent
          (A2AClient.registry (BaseAgent.a2a_client a)) other) /\
  A2AClient.status_listeners (BaseAgent.a2a_client (self res))
    = A2AClient.status_listeners (BaseAgent.a2a_client a).
Proof.
  cbv zeta. unfold BaseAgent.shutdown.
  destruct (set_status_run a "shutting_down" w) as [Ho1 Hs1].
  rewrite (bind_run _ _ a w tt Ho1), Hs1.
  set (a1 := BaseAgent.mk _ _ _ _ _ _ "shutting_down").
  set (w1 := world (BaseAgent.set_status "shutting_down" a w)).
  rewrite (bind_run get_self _ a1 w1 a1 eq_refl).
  change (self (get_self a1 w1)) with a1.
  change (world (get_self a1 w1)) with w1.
  destruct (registry_unregister_run
              (A2AClient.registry (BaseAgent.a2a_client a))
              (BaseAgent.agent_id a) w1) as [Ho2 [Hgone Hkept]].
  set (u := AgentRegistry.unregister_agent (BaseAgent.agent_id a)
              (A2AClient.registry (BaseAgent.a2a_client a)) w1) in *.
  assert (Hz : zoom BaseAgent.a2a_client BaseAgent.set_a2a_client
                 (zoom A2AClient.registry A2AClient.set_registry
                    (AgentRegistry.unregister_agent (BaseAgent.agent_id a1)))
                 a1 w1
               = mkRes (inr tt)
                   (BaseAgent.set_a2a_client
                      (A2AClient.set_registry (self u)
                         (BaseAgent.a2a_client a)) a1)
                   (world u)).
  { unfold zoom. cbn [outcome self world]. subst a1.
    cbn [BaseAgent.a2a_client BaseAgent.agent_id]. fold u. now rewrite Ho2. }
  clearbody u.
  rewrite (bind_run _ _ a1 w1 tt) by now rewrite Hz.
  rewrite Hz. cbn. repeat split; auto.
Qed.

Lemma shutdown_leaves_directory_witness :
  let registry' :=
    A2AClient.registry
      (BaseAgent.a2a_client
         (self (BaseAgent.shutdown Demo.researcher Demo.world0))) in
  AgentRegistry.get_agent registry' "remote-1" = None /\
  AgentRegistry.get_agent registry' "remote-2"
  = Some (Demo.card "remote-2" ["debugging"]).
Proof.
  destruct (shutdown_leaves_directory Demo.researcher Demo.world0)
    as [_ [_ [_ [_ [Hgone [Hkept _]]]]]].
  split; [exact Hgone|].
  rewrite (Hkept "remote-2" ltac:(discriminate)). reflexivity.
Defined.

Lemma In_values_set {V} (d : PyDict.t V) (k : string) (v : V) :
  In v (PyDict.values (PyDict.set d k v)).
Proof.
  unfold PyDict.values.
  induction d as [|[k' v'] d IH]; simpl; [now left|].
  destruct (String.eqb k' k); simpl; auto.
Qed.

(** X28.  [_register_with_registry] raises nothing and puts the card of
    the agent in its directory under the id of the agent: looking the id
    up gives the card, the agent is discovered under each of its
    capabilities, and the records of the other ids stay. *)
Theorem register_with_registry_discoverable
    (a : BaseAgent.t) (w : World) :
  let res := BaseAgent._register_with_registry a w in
  let registry' := A2AClient.registry (BaseAgent.a2a_client (self res)) in
  outcome res = inr tt /\
  AgentRegistry.get_agent registry' (BaseAgent.agent_id a)
    = Some (BaseAgent.card_of a) /\
  AgentCard.capabilities (BaseAgent.card_of a) = BaseAgent.capabilities a /\
  (forall capability,
      In capability (BaseAgent.capabilities a) ->
      In (BaseAgent.card_of a)
         (AgentRegistry.discover_agents registry' capability)) /\
  (forall other,
      other <> BaseAgent.agent_id a ->
      AgentRegistry.get_agent registry' other
      = AgentRegistry.get_agent
          (A2AClient.registry (BaseAgent.a2a_client a)) other).
Proof.
  cbv zeta.
  unfold BaseAgent._register_with_registry, bind, get_self, zoom,
    AgentRegistry.register_agent, bind, modify, print, emit.
  cbn -[PyDict.set BaseAgent.card_of].
  change (AgentCard.agent_id (BaseAgent.card_of a))
    with (BaseAgent.agent_id a).
  split; [reflexivity|]. split; [apply get_set_eq|].
  split; [reflexivity|]. split.
  - intros capability Hin. unfold AgentRegistry.discover_agents.
    cbn -[PyDict.set BaseAgent.card_of]. apply filter_In.
    split; [apply In_values_set|]. now apply str_in_iff.
  - intros other Hne. apply get_set_ne. congruence.
Qed.

Lemma register_with_registry_discoverable_witness :
  In (BaseAgent.card_of Demo.researcher)
     (AgentRegistry.discover_agents
        (A2AClient.registry
           (BaseAgent.a2a_client
              (self (BaseAgent._register_with_registry Demo.researcher
                       Demo.world0))))
        "data_analysis").
Proof.
  apply (proj1 (proj2 (proj2 (proj2 (register_with_registry_discoverable
                                       Demo.researcher Demo.world0))))).
  simpl. tauto.
Defined.
